(** * The Global Accelerator accelerator resource

    A shallow embedding of [aws/resource_aws_globalaccelerator_accelerator.go]:
    the create / read / update / delete entry points of the resource, the
    refresh function handed to the state poller, and the two flatteners.

    Go pointers ([*string], [*bool], [*Accelerator]) are [option]s, a Go
    [(T, error)] result is a pair whose second component is [option error]
    ([None] is [nil]), [map[string]interface{}] is a [gmap string _], and a
    failed type assertion or nil dereference is the outcome [Panic].  The
    remote API client is a parameter; every call made through it is
    recorded, so that properties can speak of the calls a run issues.
    Time is counted in observations of the poller. *)

From stdpp Require Import base option list strings gmap.
From Stdlib Require Import ZArith.

Local Open Scope string_scope.
Local Open Scope list_scope.

(** ** Values of the SDK *)

(** Modelled from the spec: the constants of the [globalaccelerator] SDK
    package are not part of the resource file; the statuses are the spec's
    [InProgress] and [Deployed], the error code its "entity not found". *)
Definition AcceleratorStatusInProgress : string := "IN_PROGRESS".
Definition AcceleratorStatusDeployed : string := "DEPLOYED".
Definition ErrCodeAcceleratorNotFoundException : string :=
  "AcceleratorNotFoundException".
Definition IpAddressTypeIpv4 : string := "IPV4".

Record IpSet := mkIpSet {
  IpAddresses : list string;
  IpFamily : option string
}.

Record Accelerator := mkAccelerator {
  AcceleratorArn : option string;
  Name : option string;
  IpAddressType : option string;
  Enabled : option bool;
  IpSets : list IpSet;
  Status : option string
}.

Record AcceleratorAttributes := mkAcceleratorAttributes {
  FlowLogsEnabled : option bool;
  FlowLogsS3Bucket : option string;
  FlowLogsS3Prefix : option string
}.

Record CreateAcceleratorInput := mkCreateAcceleratorInput {
  create_Name : option string;
  create_IdempotencyToken : option string;
  create_Enabled : option bool;
  create_IpAddressType : option string
}.

Record UpdateAcceleratorInput := mkUpdateAcceleratorInput {
  update_AcceleratorArn : option string;
  update_Name : option string;
  update_Enabled : option bool;
  update_IpAddressType : option string
}.

Record UpdateAcceleratorAttributesInput := mkUpdateAcceleratorAttributesInput {
  attrs_AcceleratorArn : option string;
  attrs_FlowLogsEnabled : option bool;
  attrs_FlowLogsS3Bucket : option string;
  attrs_FlowLogsS3Prefix : option string
}.

(** [aws.StringValue] and [aws.BoolValue]: the pointee, or the zero value. *)
Definition StringValue (p : option string) : string := default "" p.
Definition BoolValue (p : option bool) : bool := default false p.

(** ** Errors *)

(** The errors the resource sees: an SDK error with its code, a formatted
    error ([fmt.Errorf]), and the two failures of the poller. *)
Inductive error :=
  | awserr (Code Message : string)
  | errorString (s : string)
  | ProvisioningTimeout (LastState : string)
  | UnexpectedStatus (State : string).

Definition Error (e : error) : string :=
  match e with
  | awserr c m => c +:+ ": " +:+ m
  | errorString s => s
  | ProvisioningTimeout s =>
      "timeout while waiting for state, last state: " +:+ s
  | UnexpectedStatus s => "unexpected state: " +:+ s
  end.

(** [fmt.Errorf(prefix +:+ "%s", err)]. *)
Definition Errorf (prefix : string) (err : error) : error :=
  errorString (prefix +:+ Error err).

(** Modelled from the spec: [isAWSErr] is a helper of the provider package
    outside the resource file; an error is the spec's "entity not found"
    when it is an SDK error carrying the given code (the message filter of
    every call here is the empty string, which every message contains). *)
Definition isAWSErr (err : error) (code : string) : bool :=
  match err with
  | awserr c _ => bool_decide (c = code)
  | _ => false
  end.

(** ** Values of the resource data *)

(** What a [map[string]interface{}] of a nested block holds under a key. *)
Inductive field :=
  | FBool (b : bool)
  | FString (s : string)
  | FStrings (l : list string).

(** What [d.Get] returns for a top-level key of the schema. *)
Inductive value :=
  | VBool (b : bool)
  | VString (s : string)
  | VList (l : list (gmap string field)).

Global Instance field_eq_dec : EqDecision field.
Proof. solve_decision. Defined.
Global Instance value_eq_dec : EqDecision value.
Proof. solve_decision. Defined.

(** The zero value of each key's schema type (lines 32-98 of the source). *)
Definition schema_zero (key : string) : value :=
  if bool_decide (key = "enabled") then VBool false
  else if bool_decide (key = "ip_sets") then VList []
  else if bool_decide (key = "attributes") then VList []
  else VString "".

Record ResourceData := mkResourceData {
  Id : string;
  prior : gmap string value;      (* the state before this operation *)
  planned : gmap string value;    (* the state with the change applied *)
  written : gmap string value;    (* what [d.Set] stored *)
  partial : bool;
  partialMap : gset string;
  timeouts : gmap string Z        (* nanoseconds, by timeout key *)
}.

Definition TimeoutCreate : string := "create".
Definition TimeoutUpdate : string := "update".
Definition Minute : Z := 60 * 1000000000.
(** [schema.DefaultTimeout(5 * time.Minute)] for create and update. *)
Definition DefaultTimeout : Z := 5 * Minute.

Definition Get (d : ResourceData) (key : string) : value :=
  match written d !! key with
  | Some v => v
  | None => default (schema_zero key) (planned d !! key)
  end.

(** [d.GetOk]: the value, and whether it is set to something other than
    the zero value of its type. *)
Definition GetOk (d : ResourceData) (key : string) : value * bool :=
  let v := Get d key in (v, bool_decide (v ≠ schema_zero key)).

Definition GetChange (d : ResourceData) (key : string) : value * value :=
  (default (schema_zero key) (prior d !! key), Get d key).

(** [d.HasChange]: old and new are not deeply equal. *)
Definition HasChange (d : ResourceData) (key : string) : bool :=
  let '(o, n) := GetChange d key in bool_decide (o ≠ n).

Definition Timeout (d : ResourceData) (key : string) : Z :=
  default DefaultTimeout (timeouts d !! key).

Definition SetId (d : ResourceData) (id : string) : ResourceData :=
  mkResourceData id (prior d) (planned d) (written d)
                 (partial d) (partialMap d) (timeouts d).
Definition Set_ (d : ResourceData) (key : string) (v : value) : ResourceData :=
  mkResourceData (Id d) (prior d) (planned d) (<[key := v]> (written d))
                 (partial d) (partialMap d) (timeouts d).
(** [d.Partial]: switching partial mode off forgets the recorded keys. *)
Definition Partial (d : ResourceData) (on : bool) : ResourceData :=
  mkResourceData (Id d) (prior d) (planned d) (written d)
                 on (if on then partialMap d else ∅) (timeouts d).
Definition SetPartial (d : ResourceData) (key : string) : ResourceData :=
  if partial d
  then mkResourceData (Id d) (prior d) (planned d) (written d)
                      (partial d) ({[ key ]} ∪ partialMap d) (timeouts d)
  else d.

(** ** The remote API client and the effects of the resource *)

(** The calls the resource issues, in the order it issues them. *)
Inductive Call :=
  | CCreateAccelerator (opts : CreateAcceleratorInput)
  | CDescribeAccelerator (arn : string)
  | CDescribeAcceleratorAttributes (arn : string)
  | CUpdateAccelerator (opts : UpdateAcceleratorInput)
  | CUpdateAcceleratorAttributes (opts : UpdateAcceleratorAttributesInput)
  | CDeleteAccelerator (arn : string).

(** The client is a black box over a remote world [W]: every call returns
    a response or an error and leaves the world in a new state. *)
Record Conn (W : Type) := mkConn {
  CreateAccelerator :
    CreateAcceleratorInput → W → (error + option Accelerator) * W;
  DescribeAccelerator : string → W → (error + option Accelerator) * W;
  DescribeAcceleratorAttributes :
    string → W → (error + option AcceleratorAttributes) * W;
  UpdateAccelerator : UpdateAcceleratorInput → W → option error * W;
  UpdateAcceleratorAttributes :
    UpdateAcceleratorAttributesInput → W → option error * W;
  DeleteAccelerator : string → W → option error * W
}.
Arguments CreateAccelerator {W}.
Arguments DescribeAccelerator {W}.
Arguments DescribeAcceleratorAttributes {W}.
Arguments UpdateAccelerator {W}.
Arguments UpdateAcceleratorAttributes {W}.
Arguments DeleteAccelerator {W}.

Record state (W : Type) := mkState {
  data : ResourceData;     (* the [d] every entry point receives *)
  remote : W;
  calls : list Call;       (* the calls issued so far, oldest first *)
  uniq : nat               (* how many unique ids were drawn *)
}.
Arguments mkState {W}.
Arguments data {W}.
Arguments remote {W}.
Arguments calls {W}.
Arguments uniq {W}.

Inductive outcome (A : Type) :=
  | Return (a : A)
  | Panic.
Arguments Return {A}.
Arguments Panic {A}.

Definition M (W A : Type) : Type := state W → outcome A * state W.

Definition ret {W A} (a : A) : M W A := λ st, (Return a, st).
Definition panic {W A} : M W A := λ st, (Panic, st).
Definition bind {W A B} (m : M W A) (k : A → M W B) : M W B :=
  λ st, match m st with
        | (Return a, st') => k a st'
        | (Panic, st') => (Panic, st')
        end.

Notation "'let*' x ':=' m 'in' k" := (bind m (λ x, k))
  (at level 10, x name, m at level 100, k at level 200, only parsing).
Notation "'let*' ' pat ':=' m 'in' k" :=
  (bind m (λ x, match x with pat => k end))
  (at level 10, pat pattern, m at level 100, k at level 200, only parsing).

Definition get_d {W} : M W ResourceData := λ st, (Return (data st), st).
Definition modify_d {W} (f : ResourceData → ResourceData) : M W unit :=
  λ st, (Return tt, mkState (f (data st)) (remote st) (calls st) (uniq st)).

(** One call of the client: the world moves on and the call is recorded. *)
Definition call {W A} (c : Call) (op : W → A * W) : M W A :=
  λ st, let '(r, w) := op (remote st) in
        (Return r, mkState (data st) w (calls st ++ [c]) (uniq st)).

(** Go's checked conversions and dereferences. *)
Definition deref {W A} (p : option A) : M W A :=
  match p with Some a => ret a | None => panic end.
Definition as_string {W} (v : value) : M W string :=
  match v with VString s => ret s | _ => panic end.
Definition as_bool {W} (v : value) : M W bool :=
  match v with VBool b => ret b | _ => panic end.
Definition as_list {W} (v : value) : M W (list (gmap string field)) :=
  match v with VList l => ret l | _ => panic end.

(** ** The state poller *)

Record StateChangeConf (W R : Type) := mkStateChangeConf {
  Pending : list string;
  Target : list string;
  Refresh : M W (option R * string * option error);
  conf_Timeout : Z
}.
Arguments mkStateChangeConf {W R}.
Arguments Pending {W R}.
Arguments Target {W R}.
Arguments Refresh {W R}.
Arguments conf_Timeout {W R}.

(** Modelled from the spec: the poller ([WaitForState] of the framework's
    [helper/resource]) is not part of the resource file.  Section 4.2: on
    each observation, absence is transient and polling continues; a status
    in the target set returns the observed state at once; a status in
    neither set is surfaced as an unexpected state; when the timeout
    elapses the poller fails with the last observed status.  An error of
    the refresh function is surfaced (section 7).  Time is counted in
    observations: [polls] is how many of them fit before the deadline. *)
Fixpoint WaitForState_loop {W R} (conf : StateChangeConf W R)
    (polls : nat) (last : string) : M W (option R * option error) :=
  match polls with
  | 0 => ret (None, Some (ProvisioningTimeout last))
  | S n =>
      let* '(res, currentState, err) := Refresh conf in
      match err with
      | Some e => ret (None, Some e)
      | None =>
          match res with
          | None => WaitForState_loop conf n currentState
          | Some r =>
              if bool_decide (currentState ∈ Target conf)
              then ret (Some r, None)
              else if bool_decide (currentState ∈ Pending conf)
              then WaitForState_loop conf n currentState
              else ret (None, Some (UnexpectedStatus currentState))
          end
      end
  end.

(** ** The flatteners and the diff suppression of the schema *)

(** Modelled from the spec: [flattenStringList] is a helper of the provider
    package outside the resource file; it keeps the strings in order. *)
Definition flattenStringList (l : list string) : field := FStrings l.

Definition resourceAwsGlobalAcceleratorAcceleratorFlattenIpSets
    (ipsets : list IpSet) : list (gmap string field) :=
  (λ ipset,
     let m : gmap string field := ∅ in
     let m := <["ip_addresses" := flattenStringList (IpAddresses ipset)]> m in
     let m := <["ip_family" := FString (StringValue (IpFamily ipset))]> m in
     m) <$> ipsets.

Definition resourceAwsGlobalAcceleratorAcceleratorFlattenAttributes
    (attributes : option AcceleratorAttributes) : list (gmap string field) :=
  match attributes with
  | None => []
  | Some attributes =>
      let m : gmap string field := ∅ in
      let m :=
        <["flow_logs_enabled" :=
            FBool (BoolValue (FlowLogsEnabled attributes))]> m in
      let m :=
        <["flow_logs_s3_bucket" :=
            FString (StringValue (FlowLogsS3Bucket attributes))]> m in
      let m :=
        <["flow_logs_s3_prefix" :=
            FString (StringValue (FlowLogsS3Prefix attributes))]> m in
      [m]
  end.

(** The [DiffSuppressFunc] of the [attributes] block (lines 72-77). *)
Definition DiffSuppressFunc (k old new : string) (d : ResourceData) : bool :=
  if bool_decide (old = "1") && bool_decide (new = "0") then true else false.

(** ** The resource *)

Section Resource.
Context {W : Type}.
Variable conn : Conn W.
(** [resource.UniqueId] of the framework, by the number of ids drawn. *)
Variable UniqueId_of : nat → string.
(** How many observations the poller makes within a duration. *)
Variable polls_within : Z → nat.

Definition UniqueId : M W string :=
  λ st, (Return (UniqueId_of (uniq st)),
         mkState (data st) (remote st) (calls st) (S (uniq st))).

Definition WaitForState {R} (conf : StateChangeConf W R)
  : M W (option R * option error) :=
  WaitForState_loop conf (polls_within (conf_Timeout conf)) "".

Definition resourceAwsGlobalAcceleratorAcceleratorRetrieve
    (acceleratorArn : string) : M W (option Accelerator * option error) :=
  let* resp := call (CDescribeAccelerator acceleratorArn)
                    (DescribeAccelerator conn acceleratorArn) in
  match resp with
  | inl err =>
      if isAWSErr err ErrCodeAcceleratorNotFoundException
      then ret (None, None)
      else ret (None, Some err)
  | inr accelerator => ret (accelerator, None)
  end.

Definition resourceAwsGlobalAcceleratorAcceleratorStateRefreshFunc
    (acceleratorArn : string)
  : M W (option Accelerator * string * option error) :=
  let* '(accelerator, err) :=
    resourceAwsGlobalAcceleratorAcceleratorRetrieve acceleratorArn in
  match err with
  | Some err => ret (None, "", Some err)
  | None =>
      match accelerator with
      | None => ret (None, "", None)
      | Some a => ret (Some a, StringValue (Status a), None)
      end
  end.

Definition resourceAwsGlobalAcceleratorAcceleratorUpdateAttributes
    (acceleratorArn : string) (attributes : gmap string field)
  : M W (option error) :=
  let* enabled :=
    match attributes !! "flow_logs_enabled" with
    | Some (FBool b) => ret b
    | _ => panic
    end in
  let* bucket :=
    match attributes !! "flow_logs_s3_bucket" with
    | None => ret None
    | Some (FString s) => ret (Some s)
    | Some _ => panic
    end in
  let* prefix :=
    match attributes !! "flow_logs_s3_prefix" with
    | None => ret None
    | Some (FString s) => ret (Some s)
    | Some _ => panic
    end in
  let opts := mkUpdateAcceleratorAttributesInput
                (Some acceleratorArn) (Some enabled) bucket prefix in
  let* err := call (CUpdateAcceleratorAttributes opts)
                   (UpdateAcceleratorAttributes conn opts) in
  match err with
  | Some err =>
      ret (Some (Errorf
        "Error updating Global Accelerator accelerator attributes: " err))
  | None => ret None
  end.

Definition resourceAwsGlobalAcceleratorAcceleratorRead : M W (option error) :=
  let* d := get_d in
  let* '(accelerator, err) :=
    resourceAwsGlobalAcceleratorAcceleratorRetrieve (Id d) in
  match err with
  | Some err =>
      if isAWSErr err ErrCodeAcceleratorNotFoundException
      then let* _ := modify_d (λ d, SetId d "") in ret None
      else ret (Some (Errorf
             "Error reading Global Accelerator accelerator: " err))
  | None =>
      (* [accelerator.Name]: the first use dereferences the pointer *)
      let* a := deref accelerator in
      let* _ := modify_d (λ d, Set_ d "name"
                                  (VString (StringValue (Name a)))) in
      let* _ := modify_d (λ d, Set_ d "ip_address_type"
                            (VString (StringValue (IpAddressType a)))) in
      let* _ := modify_d (λ d, Set_ d "enabled"
                                  (VBool (BoolValue (Enabled a)))) in
      let ipsets :=
        resourceAwsGlobalAcceleratorAcceleratorFlattenIpSets (IpSets a) in
      let* _ := modify_d (λ d, Set_ d "ip_sets" (VList ipsets)) in
      let* d := get_d in
      let* resp := call (CDescribeAcceleratorAttributes (Id d))
                        (DescribeAcceleratorAttributes conn (Id d)) in
      match resp with
      | inl err =>
          ret (Some (Errorf
            "Error reading Global Accelerator accelerator attributes: " err))
      | inr attributes =>
          let flat :=
            resourceAwsGlobalAcceleratorAcceleratorFlattenAttributes
              attributes in
          let* _ := modify_d (λ d, Set_ d "attributes" (VList flat)) in
          ret None
      end
  end.

Definition resourceAwsGlobalAcceleratorAcceleratorCreate
  : M W (option error) :=
  let* d := get_d in
  let* name := as_string (Get d "name") in
  let* token := UniqueId in
  let* enabled := as_bool (Get d "enabled") in
  let opts := mkCreateAcceleratorInput
                (Some name) (Some token) (Some enabled) None in
  let* opts :=
    (let '(v, ok) := GetOk d "ip_address_type" in
     if ok
     then let* v := as_string v in
          ret (mkCreateAcceleratorInput
                 (create_Name opts) (create_IdempotencyToken opts)
                 (create_Enabled opts) (Some v))
     else ret opts) in
  let* resp := call (CCreateAccelerator opts)
                    (CreateAccelerator conn opts) in
  match resp with
  | inl err =>
      ret (Some (Errorf
        "Error creating Global Accelerator accelerator: " err))
  | inr accelerator =>
      let* a := deref accelerator in
      let* arn := deref (AcceleratorArn a) in
      let* _ := modify_d (λ d, SetId d arn) in
      let* d := get_d in
      let stateConf :=
        mkStateChangeConf
          [AcceleratorStatusInProgress] [AcceleratorStatusDeployed]
          (resourceAwsGlobalAcceleratorAcceleratorStateRefreshFunc (Id d))
          (Timeout d TimeoutCreate) in
      let* '(_, err) := WaitForState stateConf in
      match err with
      | Some err =>
          ret (Some (Errorf
            ("Error waiting for Global Accelerator accelerator ("
               +:+ Id d +:+ ") availability: ") err))
      | None =>
          let* v := as_list (Get d "attributes") in
          let* err :=
            match v with
            | v0 :: _ =>
                resourceAwsGlobalAcceleratorAcceleratorUpdateAttributes
                  (Id d) v0
            | [] => ret None
            end in
          match err with
          | Some err => ret (Some err)
          | None => resourceAwsGlobalAcceleratorAcceleratorRead
          end
      end
  end.

Definition resourceAwsGlobalAcceleratorAcceleratorUpdate
  : M W (option error) :=
  let* _ := modify_d (λ d, Partial d true) in
  let* d := get_d in
  let* err :=
    if HasChange d "name" || HasChange d "ip_address_type"
       || HasChange d "enabled"
    then
      let* name := as_string (Get d "name") in
      let* enabled := as_bool (Get d "enabled") in
      let opts := mkUpdateAcceleratorInput
                    (Some (Id d)) (Some name) (Some enabled) None in
      let* opts :=
        (let '(v, ok) := GetOk d "ip_address_type" in
         if ok
         then let* v := as_string v in
              ret (mkUpdateAcceleratorInput
                     (update_AcceleratorArn opts) (update_Name opts)
                     (update_Enabled opts) (Some v))
         else ret opts) in
      let* err := call (CUpdateAccelerator opts)
                       (UpdateAccelerator conn opts) in
      match err with
      | Some err =>
          ret (Some (Errorf
            "Error updating Global Accelerator accelerator: " err))
      | None =>
          let* _ := modify_d (λ d, SetPartial d "name") in
          let* _ := modify_d (λ d, SetPartial d "ip_address_type") in
          let* _ := modify_d (λ d, SetPartial d "enabled") in
          let stateConf :=
            mkStateChangeConf
              [AcceleratorStatusInProgress] [AcceleratorStatusDeployed]
              (resourceAwsGlobalAcceleratorAcceleratorStateRefreshFunc
                 (Id d))
              (Timeout d TimeoutUpdate) in
          let* '(_, err) := WaitForState stateConf in
          match err with
          | Some err =>
              ret (Some (Errorf
                ("Error waiting for Global Accelerator accelerator ("
                   +:+ Id d +:+ ") availability: ") err))
          | None => ret None
          end
      end
    else ret None in
  match err with
  | Some err => ret (Some err)
  | None =>
      let* err :=
        if HasChange d "attributes"
        then
          let* v := as_list (Get d "attributes") in
          let* err :=
            match v with
            | v0 :: _ =>
                resourceAwsGlobalAcceleratorAcceleratorUpdateAttributes
                  (Id d) v0
            | [] => ret None
            end in
          match err with
          | Some err => ret (Some err)
          | None =>
              let* _ := modify_d (λ d, SetPartial d "attributes") in
              ret None
          end
        else ret None in
      match err with
      | Some err => ret (Some err)
      | None =>
          let* _ := modify_d (λ d, Partial d false) in
          resourceAwsGlobalAcceleratorAcceleratorRead
      end
  end.

Definition resourceAwsGlobalAcceleratorAcceleratorDelete
  : M W (option error) :=
  let* d := get_d in
  let* err := call (CDeleteAccelerator (Id d))
                   (DeleteAccelerator conn (Id d)) in
  match err with
  | Some err =>
      if isAWSErr err ErrCodeAcceleratorNotFoundException
      then ret None
      else ret (Some (Errorf
             "Error deleting Global Accelerator accelerator: " err))
  | None => ret None
  end.

End Resource.

(** ** A scripted client

    A test double of the remote API client: every operation answers from
    a script; [DescribeAccelerator] consumes one scripted answer per call
    and reports "not found" once the answers are used up. *)

Record script := mkScript {
  on_create : error + option Accelerator;
  on_describe : list (error + option Accelerator);
  on_describe_attributes : error + option AcceleratorAttributes;
  on_update : option error;
  on_update_attributes : option error;
  on_delete : option error
}.

Definition not_found : error :=
  awserr ErrCodeAcceleratorNotFoundException "no such accelerator".

Definition scripted : Conn script :=
  mkConn script
    (λ _ w, (on_create w, w))
    (λ _ w,
       match on_describe w with
       | [] => (inl not_found, w)
       | r :: rest =>
           (r, mkScript (on_create w) rest (on_describe_attributes w)
                        (on_update w) (on_update_attributes w) (on_delete w))
       end)
    (λ _ w, (on_describe_attributes w, w))
    (λ _ w, (on_update w, w))
    (λ _ w, (on_update_attributes w, w))
    (λ _ w, (on_delete w, w)).

Definition accelerator_with (status : string) : Accelerator :=
  mkAccelerator (Some "arn:accelerator/a1") (Some "example")
                (Some IpAddressTypeIpv4) (Some true) [] (Some status).

Definition quiet : script :=
  mkScript (inr (Some (accelerator_with AcceleratorStatusInProgress)))
           [] (inr None) None None None.

Definition with_describe (w : script)
    (l : list (error + option Accelerator)) : script :=
  mkScript (on_create w) l (on_describe_attributes w)
           (on_update w) (on_update_attributes w) (on_delete w).

Definition resource_data (id : string) (old new : gmap string value)
  : ResourceData :=
  mkResourceData id old new ∅ false ∅ ∅.

Definition start {W} (d : ResourceData) (w : W) : state W :=
  mkState d w [] 0.

Definition with_update (w : script) (e : option error) : script :=
  mkScript (on_create w) (on_describe w) (on_describe_attributes w)
           e (on_update_attributes w) (on_delete w).

Definition with_update_attributes (w : script) (e : option error) : script :=
  mkScript (on_create w) (on_describe w) (on_describe_attributes w)
           (on_update w) e (on_delete w).

Definition with_delete (w : script) (e : option error) : script :=
  mkScript (on_create w) (on_describe w) (on_describe_attributes w)
           (on_update w) (on_update_attributes w) e.

Definition with_create (w : script) (r : error + option Accelerator)
  : script :=
  mkScript r (on_describe w) (on_describe_attributes w)
           (on_update w) (on_update_attributes w) (on_delete w).

Definition with_describe_attributes (w : script)
    (r : error + option AcceleratorAttributes) : script :=
  mkScript (on_create w) (on_describe w) r
           (on_update w) (on_update_attributes w) (on_delete w).


(** Sample data for the runs below. *)
Definition arn1 : string := "arn:accelerator/a1".
Definition three_polls : Z → nat := λ _, 3.
Definition throttled : error := awserr "ThrottlingException" "slow down".

Definition deployed : error + option Accelerator :=
  inr (Some (accelerator_with AcceleratorStatusDeployed)).
Definition in_progress : error + option Accelerator :=
  inr (Some (accelerator_with AcceleratorStatusInProgress)).

Definition flow_logs : gmap string field :=
  {[ "flow_logs_enabled" := FBool true;
     "flow_logs_s3_bucket" := FString "logs";
     "flow_logs_s3_prefix" := FString "accelerator/" ]}.

(** A new resource with an attributes block. *)
Definition fresh : ResourceData :=
  resource_data ""
    ∅
    {[ "name" := VString "example"; "attributes" := VList [flow_logs] ]}.

(** A rename together with a new attributes block. *)
Definition renamed : ResourceData :=
  resource_data arn1
    {[ "name" := VString "old" ]}
    {[ "name" := VString "new"; "attributes" := VList [flow_logs] ]}.

(** ** Observations of the poller *)

Definition is_not_found (o : error + option Accelerator) : bool :=
  match o with
  | inl err => isAWSErr err ErrCodeAcceleratorNotFoundException
  | inr _ => false
  end.


(** An observation after which the poller goes on polling: the entity
    is not found, or absent from the answer, or still in progress. *)
Definition keeps_polling (o : error + option Accelerator) : bool :=
  match o with
  | inl err => isAWSErr err ErrCodeAcceleratorNotFoundException
  | inr None => true
  | inr (Some a) =>
      bool_decide (StringValue (Status a) = AcceleratorStatusInProgress)
  end.

(** The status the refresh function reports for an observation. *)
Definition status_of (o : error + option Accelerator) : string :=
  match o with
  | inr (Some a) => StringValue (Status a)
  | _ => ""
  end.

Section Observations.
Context {W : Type}.
Variable conn : Conn W.

(** The state after one more [DescribeAccelerator] of [arn]. *)
Definition polled1 (arn : string) (st : state W) : state W :=
  mkState (data st) (DescribeAccelerator conn arn (remote st)).2
          (calls st ++ [CDescribeAccelerator arn]) (uniq st).

(** The state after [k] more of them. *)
Fixpoint polled (arn : string) (k : nat) (st : state W) : state W :=
  match k with
  | 0 => st
  | S k => polled arn k (polled1 arn st)
  end.

(** The answer to the [i]-th [DescribeAccelerator] from [st] on,
    counting from 0. *)
Definition observation (arn : string) (i : nat) (st : state W)
  : error + option Accelerator :=
  (DescribeAccelerator conn arn (remote (polled arn i st))).1.

(** The configuration both call sites build (lines 124-129, 272-277). *)
Definition stateConf (arn : string) (timeout : Z)
  : StateChangeConf W Accelerator :=
  mkStateChangeConf
    [AcceleratorStatusInProgress] [AcceleratorStatusDeployed]
    (resourceAwsGlobalAcceleratorAcceleratorStateRefreshFunc conn arn)
    timeout.

(** The status the poller holds after [k] observations. *)
Definition last_status (arn : string) (k : nat) (last : string)
    (st : state W) : string :=
  match k with
  | 0 => last
  | S j => status_of (observation arn j st)
  end.

End Observations.

(** ** The calls of a run *)

(** Every run of [m] only appends calls to the record, all of them in [P]. *)
Definition emits {W A} (P : Call → Prop) (m : M W A) : Prop :=
  ∀ st, ∃ l, calls (m st).2 = calls st ++ l ∧ Forall P l.

Definition is_read (c : Call) : Prop :=
  match c with
  | CDescribeAccelerator _ | CDescribeAcceleratorAttributes _ => True
  | _ => False
  end.

Definition is_update_attributes (c : Call) : Prop :=
  match c with CUpdateAcceleratorAttributes _ => True | _ => False end.

Definition is_not_create (c : Call) : Prop :=
  match c with CCreateAccelerator _ => False | _ => True end.

Definition is_update (c : Call) : bool :=
  match c with CUpdateAccelerator _ => true | _ => false end.

Definition is_attributes_update (c : Call) : bool :=
  match c with CUpdateAcceleratorAttributes _ => true | _ => false end.

(** The calls issued between two states of a run. *)
Definition issued {W} (st st' : state W) : list Call :=
  drop (length (calls st)) (calls st').

Definition count (p : Call → bool) (l : list Call) : nat :=
  length (List.filter p l).

(** ** Resource data that conforms to the schema *)

(** A nested [attributes] block as the schema types it (lines 78-96). *)
Definition block_conforms (m : gmap string field) : bool :=
  match m !! "flow_logs_enabled" with Some (FBool _) => true | _ => false end
  && match m !! "flow_logs_s3_bucket" with
     | None | Some (FString _) => true
     | _ => false
     end
  && match m !! "flow_logs_s3_prefix" with
     | None | Some (FString _) => true
     | _ => false
     end.

(** The values [d.Get] yields have the types of the schema (lines 32-98). *)
Definition conforms (d : ResourceData) : bool :=
  match Get d "name", Get d "ip_address_type",
        Get d "enabled", Get d "attributes" with
  | VString _, VString _, VBool _, VList l => forallb block_conforms l
  | _, _, _, _ => false
  end.

(** The request [UpdateAttributes] builds from a block (lines 304-315). *)
Definition attributes_input (arn : string) (m : gmap string field)
  : UpdateAcceleratorAttributesInput :=
  mkUpdateAcceleratorAttributesInput
    (Some arn)
    (Some match m !! "flow_logs_enabled" with
          | Some (FBool b) => b
          | _ => false
          end)
    match m !! "flow_logs_s3_bucket" with
    | Some (FString s) => Some s
    | _ => None
    end
    match m !! "flow_logs_s3_prefix" with
    | Some (FString s) => Some s
    | _ => None
    end.

(** The request the base step of Update builds (lines 251-259). *)
Definition update_input (d : ResourceData) : UpdateAcceleratorInput :=
  mkUpdateAcceleratorInput
    (Some (Id d))
    (Some match Get d "name" with VString s => s | _ => "" end)
    (Some match Get d "enabled" with VBool b => b | _ => false end)
    match Get d "ip_address_type" with
    | VString s => if bool_decide (s = "") then None else Some s
    | _ => None
    end.

Definition base_changed (d : ResourceData) : bool :=
  HasChange d "name" || HasChange d "ip_address_type"
  || HasChange d "enabled".

(** The resource data once the base step has recorded its three keys. *)
Definition base_recorded (d : ResourceData) : ResourceData :=
  SetPartial (SetPartial (SetPartial (Partial d true) "name")
                "ip_address_type") "enabled".

(** ** What a run leaves of the resource data *)

(** The resource data after Read has stored the base fields of a found
    accelerator (lines 161-164). *)
Definition read_base (d : ResourceData) (a : Accelerator) : ResourceData :=
  Set_ (Set_ (Set_ (Set_ d "name" (VString (StringValue (Name a))))
                   "ip_address_type"
                   (VString (StringValue (IpAddressType a))))
             "enabled" (VBool (BoolValue (Enabled a))))
       "ip_sets"
       (VList (resourceAwsGlobalAcceleratorAcceleratorFlattenIpSets
                 (IpSets a))).

(** The keys Read stores. *)
Definition read_keys : gset string :=
  {[ "name"; "ip_address_type"; "enabled"; "ip_sets"; "attributes" ]}.

(** [d'] differs from [d] at most in what [d.Set] stored under [keys]. *)
Definition set_only (keys : gset string) (d d' : ResourceData) : Prop :=
  Id d' = Id d ∧ prior d' = prior d ∧ planned d' = planned d ∧
  partial d' = partial d ∧ partialMap d' = partialMap d ∧
  timeouts d' = timeouts d ∧
  ∀ k, k ∉ keys → written d' !! k = written d !! k.

(** [Q] holds of the outcome and the final state of [m] run from [st]. *)
Definition wp {W A} (m : M W A) (Q : outcome A → state W → Prop)
    (st : state W) : Prop :=
  Q (m st).1 (m st).2.

Definition is_delete (c : Call) : Prop :=
  match c with CDeleteAccelerator _ => True | _ => False end.

(** The calls Create may issue: anything but a base update or a delete. *)
Definition in_create_role (c : Call) : Prop :=
  match c with
  | CUpdateAccelerator _ | CDeleteAccelerator _ => False
  | _ => True
  end.

(** The calls Update may issue: anything but a create or a delete. *)
Definition in_update_role (c : Call) : Prop :=
  match c with
  | CCreateAccelerator _ | CDeleteAccelerator _ => False
  | _ => True
  end.

(** The request Create builds (lines 105-113), with the token it drew. *)
Definition create_input (d : ResourceData) (token : string)
  : CreateAcceleratorInput :=
  mkCreateAcceleratorInput
    (Some match Get d "name" with VString s => s | _ => "" end)
    (Some token)
    (Some match Get d "enabled" with VBool b => b | _ => false end)
    match Get d "ip_address_type" with
    | VString s => if bool_decide (s = "") then None else Some s
    | _ => None
    end.

(** The values [d.Get] yields for the three base fields have the types of
    the schema. *)
Definition base_conforms (d : ResourceData) : bool :=
  match Get d "name", Get d "ip_address_type", Get d "enabled" with
  | VString _, VString _, VBool _ => true
  | _, _, _ => false
  end.

(** [st'] has the id, the prior and planned state, and the timeouts of
    [st]. *)
Definition frame {W} (st st' : state W) : Prop :=
  Id (data st') = Id (data st) ∧ prior (data st') = prior (data st) ∧
  planned (data st') = planned (data st) ∧
  timeouts (data st') = timeouts (data st).

(** Every run of [m] keeps them. *)
Definition keeps {W A} (m : M W A) : Prop := ∀ st, frame st (m st).2.

(** * Properties *)

(** ** Diff suppression *)

(** C9: the diff suppression of the [attributes] block answers true
    exactly for old value "1" and new value "0"; every other pair, and in
    particular old "0" with new "1", is not suppressed. *)
Theorem DiffSuppressFunc_exactly_one_to_zero :
  (∀ k old new d,
     DiffSuppressFunc k old new d = true ↔ old = "1" ∧ new = "0") ∧
  (∀ k d, DiffSuppressFunc k "0" "1" d = false).
Proof.
  split; [|done].
  intros k old new d. unfold DiffSuppressFunc.
  destruct (decide (old = "1")) as [->|Hold], (decide (new = "0")) as [->|Hnew].
  - by rewrite !bool_decide_eq_true_2.
  - rewrite (bool_decide_eq_false_2 (new = "0")) by done.
    rewrite andb_false_r. split; [done|]. by intros [_ ?].
  - rewrite (bool_decide_eq_false_2 (old = "1")) by done.
    split; [done|]. by intros [? _].
  - rewrite (bool_decide_eq_false_2 (old = "1")) by done.
    split; [done|]. by intros [? _].
Qed.

(** ** The attributes flattener *)

(** C8: flattening is total; a missing attributes sub-resource gives the
    empty list; a present one gives exactly one element, which holds the
    three keys and nothing else, each with the server's value or, where
    the server omitted it, false or the empty string. *)
Theorem FlattenAttributes_total_with_defaults :
  resourceAwsGlobalAcceleratorAcceleratorFlattenAttributes None = [] ∧
  ∀ attributes,
    ∃ m, resourceAwsGlobalAcceleratorAcceleratorFlattenAttributes
           (Some attributes) = [m] ∧
      m !! "flow_logs_enabled" =
        Some (FBool (default false (FlowLogsEnabled attributes))) ∧
      m !! "flow_logs_s3_bucket" =
        Some (FString (default "" (FlowLogsS3Bucket attributes))) ∧
      m !! "flow_logs_s3_prefix" =
        Some (FString (default "" (FlowLogsS3Prefix attributes))) ∧
      dom m = {[ "flow_logs_enabled"; "flow_logs_s3_bucket";
                 "flow_logs_s3_prefix" ]}.
Proof.
  split; [done|]. intros attributes. eexists. split; [done|].
  split_and!; by simplify_map_eq.
Qed.

(** ** Running the client *)

Section Runs.
Context {W : Type}.
Variable conn : Conn W.
Variable polls_within : Z → nat.

Local Abbreviation polled1 := (polled1 conn).
Local Abbreviation polled := (polled conn).
Local Abbreviation observation := (observation conn).
Local Abbreviation stateConf := (stateConf conn).
Local Abbreviation last_status := (last_status conn).

Lemma polled_S arn k st :
  polled arn (S k) st = polled1 arn (polled arn k st).
Proof.
  revert st. induction k as [|k IH]; intros st; [done|].
  change (polled arn (S (S k)) st) with (polled arn (S k) (polled1 arn st)).
  by rewrite IH.
Qed.

Lemma polled_data arn k st : data (polled arn k st) = data st.
Proof.
  revert st. induction k as [|k IH]; intros st; [done|].
  cbn [polled]. by rewrite IH.
Qed.

Lemma polled_uniq arn k st : uniq (polled arn k st) = uniq st.
Proof.
  revert st. induction k as [|k IH]; intros st; [done|].
  cbn [polled]. by rewrite IH.
Qed.

Lemma polled_calls arn k st :
  calls (polled arn k st) =
  calls st ++ replicate k (CDescribeAccelerator arn).
Proof.
  revert st. induction k as [|k IH]; intros st; cbn [polled replicate].
  - by rewrite app_nil_r.
  - rewrite IH. cbn [polled1 calls]. by rewrite <- app_assoc.
Qed.

Lemma observation_S arn i st :
  observation arn (S i) st = observation arn i (polled1 arn st).
Proof. done. Qed.

Lemma Retrieve_run arn st :
  resourceAwsGlobalAcceleratorAcceleratorRetrieve conn arn st =
  (Return match observation arn 0 st with
          | inl err =>
              if isAWSErr err ErrCodeAcceleratorNotFoundException
              then (None, None) else (None, Some err)
          | inr accelerator => (accelerator, None)
          end,
   polled1 arn st).
Proof.
  unfold resourceAwsGlobalAcceleratorAcceleratorRetrieve, observation,
    polled1, bind, call. simpl.
  destruct (DescribeAccelerator conn arn (remote st)) as [[err|a] w]; simpl;
    [destruct (isAWSErr _ _)|]; done.
Qed.

Lemma RefreshFunc_run arn st :
  resourceAwsGlobalAcceleratorAcceleratorStateRefreshFunc conn arn st =
  (Return match observation arn 0 st with
          | inl err =>
              if isAWSErr err ErrCodeAcceleratorNotFoundException
              then (None, "", None) else (None, "", Some err)
          | inr None => (None, "", None)
          | inr (Some a) => (Some a, StringValue (Status a), None)
          end,
   polled1 arn st).
Proof.
  unfold resourceAwsGlobalAcceleratorAcceleratorStateRefreshFunc, bind.
  rewrite Retrieve_run.
  destruct (observation arn 0 st) as [err|[a|]]; simpl;
    [destruct (isAWSErr _ _)| |]; done.
Qed.

(** One turn of the poll loop, by what the refresh function observed. *)
Lemma WaitForState_loop_S arn timeout n last st :
  WaitForState_loop (stateConf arn timeout) (S n) last st =
  match observation arn 0 st with
  | inl err =>
      if isAWSErr err ErrCodeAcceleratorNotFoundException
      then WaitForState_loop (stateConf arn timeout) n "" (polled1 arn st)
      else (Return (None, Some err), polled1 arn st)
  | inr None =>
      WaitForState_loop (stateConf arn timeout) n "" (polled1 arn st)
  | inr (Some a) =>
      if bool_decide (StringValue (Status a) = AcceleratorStatusDeployed)
      then (Return (Some a, None), polled1 arn st)
      else if bool_decide
                (StringValue (Status a) = AcceleratorStatusInProgress)
      then WaitForState_loop (stateConf arn timeout) n
             (StringValue (Status a)) (polled1 arn st)
      else (Return (None, Some (UnexpectedStatus (StringValue (Status a)))),
            polled1 arn st)
  end.
Proof.
  cbn [WaitForState_loop]. unfold bind at 1.
  cbn [Refresh stateConf]. rewrite RefreshFunc_run.
  destruct (observation arn 0 st) as [err|[a|]]; [destruct (isAWSErr _ _)| |];
    try done.
  cbn [Target Pending stateConf].
  rewrite (bool_decide_ext (_ ∈ [AcceleratorStatusDeployed])
             (StringValue (Status a) = AcceleratorStatusDeployed))
    by apply list_elem_of_singleton.
  rewrite (bool_decide_ext (_ ∈ [AcceleratorStatusInProgress])
             (StringValue (Status a) = AcceleratorStatusInProgress))
    by apply list_elem_of_singleton.
  repeat case_bool_decide; done.
Qed.

Lemma is_not_found_keeps_polling o :
  is_not_found o = true → keeps_polling o = true.
Proof. by destruct o. Qed.

Lemma is_not_found_status_of o : is_not_found o = true → status_of o = "".
Proof. by destruct o. Qed.



Lemma WaitForState_loop_keeps_polling arn timeout n last st :
  keeps_polling (observation arn 0 st) = true →
  WaitForState_loop (stateConf arn timeout) (S n) last st =
  WaitForState_loop (stateConf arn timeout) n
    (status_of (observation arn 0 st)) (polled1 arn st).
Proof.
  intros Hk. rewrite WaitForState_loop_S.
  destruct (observation arn 0 st) as [err|[a|]]; simpl in *.
  - by rewrite Hk.
  - apply bool_decide_eq_true in Hk. rewrite Hk. done.
  - done.
Qed.

Lemma WaitForState_loop_prefix arn timeout k : ∀ n last st,
  (∀ i, i < k → keeps_polling (observation arn i st) = true) →
  WaitForState_loop (stateConf arn timeout) (k + n) last st =
  WaitForState_loop (stateConf arn timeout) n
    (last_status arn k last st) (polled arn k st).
Proof.
  induction k as [|k IH]; intros n last st Hk; [done|].
  cbn [Nat.add polled].
  rewrite WaitForState_loop_keeps_polling by (apply Hk; lia).
  rewrite IH by (intros i Hi; rewrite <- observation_S; apply Hk; lia).
  by destruct k.
Qed.

Lemma WaitForState_loop_target arn timeout n last st a :
  observation arn 0 st = inr (Some a) →
  StringValue (Status a) = AcceleratorStatusDeployed →
  WaitForState_loop (stateConf arn timeout) (S n) last st =
  (Return (Some a, None), polled1 arn st).
Proof.
  intros Ho Hs. rewrite WaitForState_loop_S, Ho.
  by rewrite bool_decide_eq_true_2.
Qed.

(** The poller never panics and makes at most [n] observations. *)
Lemma WaitForState_loop_terminates arn timeout n : ∀ last st,
  ∃ r j, (j ≤ n)%nat ∧
    WaitForState_loop (stateConf arn timeout) n last st =
    (Return r, polled arn j st).
Proof.
  induction n as [|n IH]; intros last st.
  - exists (None, Some (ProvisioningTimeout last)), 0. done.
  - rewrite WaitForState_loop_S.
    assert (∀ last',
      ∃ r j, (j ≤ S n)%nat ∧
        WaitForState_loop (stateConf arn timeout) n last' (polled1 arn st) =
        (Return r, polled arn j st)) as Hgo.
    { intros last'. destruct (IH last' (polled1 arn st)) as (r & j & Hj & ->).
      exists r, (S j). split; [lia|done]. }
    assert (∀ r : option Accelerator * option error,
      ∃ r' j, (j ≤ S n)%nat ∧
        (Return r, polled1 arn st) = (Return r', polled arn j st)) as Hstop.
    { intros r. exists r, 1. split; [lia|done]. }
    destruct (observation arn 0 st) as [err|[a|]];
      repeat case_match; auto.
Qed.

(** ** The poller at the two call sites *)

(** C4: an observation of "not found" is transient.  While the first
    [k] answers are "not found" the loop goes on with the budget that is
    left; if that is the whole budget the poller fails with the timeout
    and nothing else; if a deployed accelerator is then observed within
    the budget, that accelerator is returned. *)
Theorem WaitForState_not_found_is_transient arn timeout st k :
  (∀ i, i < k → is_not_found (observation arn i st) = true) →
  (∀ n last,
     WaitForState_loop (stateConf arn timeout) (k + n) last st =
     WaitForState_loop (stateConf arn timeout) n
       (match k with 0 => last | S _ => "" end) (polled arn k st)) ∧
  (k = polls_within timeout →
     WaitForState polls_within (stateConf arn timeout) st =
     (Return (None, Some (ProvisioningTimeout "")), polled arn k st)) ∧
  (∀ a, k < polls_within timeout →
     observation arn k st = inr (Some a) →
     StringValue (Status a) = AcceleratorStatusDeployed →
     WaitForState polls_within (stateConf arn timeout) st =
     (Return (Some a, None), polled arn (S k) st)).
Proof.
  intros Hnf.
  assert (∀ n last,
     WaitForState_loop (stateConf arn timeout) (k + n) last st =
     WaitForState_loop (stateConf arn timeout) n
       (match k with 0 => last | S _ => "" end) (polled arn k st)) as Hgo.
  { intros n last. rewrite WaitForState_loop_prefix
      by (intros i Hi; by apply is_not_found_keeps_polling, Hnf).
    destruct k as [|k]; [done|]. cbn [last_status].
    rewrite is_not_found_status_of; [done|]. apply Hnf. lia. }
  split_and!; [done| |].
  - intros Hk. unfold WaitForState. cbn [conf_Timeout stateConf].
    rewrite <- Hk, <- (Nat.add_0_r k) at 1. rewrite Hgo.
    by destruct k.
  - intros a Hk Ho Hs. unfold WaitForState. cbn [conf_Timeout stateConf].
    replace (polls_within timeout)
      with (k + S (polls_within timeout - S k)) by lia.
    rewrite Hgo, polled_S. by apply WaitForState_loop_target.
Qed.


(** C6: the poller returns on the first observation whose status is in
    the target set, which is Deployed alone at both call sites: after
    [k] observations that keep it polling, a deployed accelerator
    observed within the timeout is returned at once, with no further
    call. *)
Theorem WaitForState_returns_first_target arn timeout st k a :
  (∀ i, i < k → keeps_polling (observation arn i st) = true) →
  k < polls_within timeout →
  observation arn k st = inr (Some a) →
  StringValue (Status a) ∈ Target (stateConf arn timeout) →
  Target (stateConf arn timeout) = [AcceleratorStatusDeployed] ∧
  WaitForState polls_within (stateConf arn timeout) st =
  (Return (Some a, None), polled arn (S k) st).
Proof.
  intros Hk Hlt Ho Hs. split; [done|].
  apply list_elem_of_singleton in Hs.
  unfold WaitForState. cbn [conf_Timeout stateConf].
  replace (polls_within timeout)
    with (k + S (polls_within timeout - S k)) by lia.
  rewrite WaitForState_loop_prefix, polled_S by done.
  by apply WaitForState_loop_target.
Qed.

(** ** Delete *)

(** C7: when the client answers the delete request with an error,
    Delete returns success if the error is "not found" and otherwise
    returns the error to its caller, wrapped in its own message; for
    every id. *)
Theorem Delete_not_found_is_success st err w :
  DeleteAccelerator conn (Id (data st)) (remote st) = (Some err, w) →
  let st' := mkState (data st) w
               (calls st ++ [CDeleteAccelerator (Id (data st))])
               (uniq st) in
  (isAWSErr err ErrCodeAcceleratorNotFoundException = true →
     resourceAwsGlobalAcceleratorAcceleratorDelete conn st =
     (Return None, st')) ∧
  (isAWSErr err ErrCodeAcceleratorNotFoundException = false →
     resourceAwsGlobalAcceleratorAcceleratorDelete conn st =
     (Return (Some (Errorf
        "Error deleting Global Accelerator accelerator: " err)), st')).
Proof.
  intros Hdel st'.
  unfold resourceAwsGlobalAcceleratorAcceleratorDelete, bind, get_d, call.
  rewrite Hdel. cbn. split; intros ->; done.
Qed.

(** ** Read *)

(** The run of Read when the entity is not found: [Retrieve] has turned
    the error into a nil accelerator and a nil error, so the branch that
    clears the id is skipped and the nil accelerator is dereferenced. *)
Lemma Read_not_found st err w :
  DescribeAccelerator conn (Id (data st)) (remote st) = (inl err, w) →
  isAWSErr err ErrCodeAcceleratorNotFoundException = true →
  resourceAwsGlobalAcceleratorAcceleratorRead conn st =
  (Panic, polled1 (Id (data st)) st).
Proof.
  intros Hd Hnf.
  unfold resourceAwsGlobalAcceleratorAcceleratorRead, bind at 1, get_d.
  unfold bind at 1. rewrite Retrieve_run.
  unfold observation. cbn [polled]. rewrite Hd. cbn. by rewrite Hnf.
Qed.

End Runs.

(** ** Runs on the scripted client *)

(** Two "not found" answers, then a deployed accelerator, in three polls. *)
Lemma WaitForState_not_found_is_transient_witness :
  WaitForState three_polls (stateConf scripted arn1 DefaultTimeout)
    (start (resource_data arn1 ∅ ∅)
       (with_describe quiet [inl not_found; inl not_found; deployed])) =
  (Return (Some (accelerator_with AcceleratorStatusDeployed), None),
   polled scripted arn1 3
     (start (resource_data arn1 ∅ ∅)
        (with_describe quiet [inl not_found; inl not_found; deployed]))).
Proof.
  apply (WaitForState_not_found_is_transient scripted three_polls arn1
           DefaultTimeout _ 2).
  - intros [|[|i]] Hi; [reflexivity|reflexivity|lia].
  - unfold three_polls. lia.
  - reflexivity.
  - reflexivity.
Defined.



(** "Not found", then in progress, then deployed: returned at the third
    poll. *)
Lemma WaitForState_returns_first_target_witness :
  WaitForState three_polls (stateConf scripted arn1 DefaultTimeout)
    (start (resource_data arn1 ∅ ∅)
       (with_describe quiet [inl not_found; in_progress; deployed])) =
  (Return (Some (accelerator_with AcceleratorStatusDeployed), None),
   polled scripted arn1 3
     (start (resource_data arn1 ∅ ∅)
        (with_describe quiet [inl not_found; in_progress; deployed]))).
Proof.
  apply (WaitForState_returns_first_target scripted three_polls arn1
           DefaultTimeout _ 2).
  - intros [|[|i]] Hi; [reflexivity|reflexivity|lia].
  - unfold three_polls. lia.
  - reflexivity.
  - apply list_elem_of_singleton. reflexivity.
Defined.

(** Delete against a client that answers "not found", and against one
    that throttles. *)
Lemma Delete_not_found_is_success_witness :
  resourceAwsGlobalAcceleratorAcceleratorDelete scripted
    (start (resource_data arn1 ∅ ∅) (with_delete quiet (Some not_found))) =
  (Return None,
   mkState (resource_data arn1 ∅ ∅) (with_delete quiet (Some not_found))
           [CDeleteAccelerator arn1] 0) ∧
  resourceAwsGlobalAcceleratorAcceleratorDelete scripted
    (start (resource_data arn1 ∅ ∅) (with_delete quiet (Some throttled))) =
  (Return (Some (errorString
     "Error deleting Global Accelerator accelerator: ThrottlingException: slow down")),
   mkState (resource_data arn1 ∅ ∅) (with_delete quiet (Some throttled))
           [CDeleteAccelerator arn1] 0).
Proof.
  split.
  - apply (Delete_not_found_is_success scripted
             (start (resource_data arn1 ∅ ∅)
                    (with_delete quiet (Some not_found)))
             not_found _ eq_refl).
    reflexivity.
  - apply (Delete_not_found_is_success scripted
             (start (resource_data arn1 ∅ ∅)
                    (with_delete quiet (Some throttled)))
             throttled _ eq_refl).
    reflexivity.
Defined.

(** C1 fails on the code: for an accelerator the client reports as not
    found, Read neither returns nor clears the id.  [Retrieve] has already
    swallowed the error, so Read's own not-found branch is never taken and
    the nil accelerator is dereferenced. *)
Theorem Read_not_found_dereferences_nil :
  let st := start (resource_data arn1 ∅ ∅) quiet in
  is_not_found (observation scripted arn1 0 st) = true ∧
  resourceAwsGlobalAcceleratorAcceleratorRead scripted st =
    (Panic, mkState (resource_data arn1 ∅ ∅) quiet
                    [CDescribeAccelerator arn1] 0) ∧
  Id (data (resourceAwsGlobalAcceleratorAcceleratorRead scripted st).2) ≠ "".
Proof.
  intros st.
  assert (resourceAwsGlobalAcceleratorAcceleratorRead scripted st =
          (Panic, mkState (resource_data arn1 ∅ ∅) quiet
                          [CDescribeAccelerator arn1] 0)) as Hrun.
  { by rewrite (Read_not_found scripted st not_found quiet). }
  split_and!; [done|done|]. by rewrite Hrun.
Qed.

(** ** What an operation sends to the client *)

Section Emits.
Context {W : Type}.
Variable conn : Conn W.
Variable UniqueId_of : nat → string.
Variable polls_within : Z → nat.

Lemma emits_ret {A} P (a : A) : emits (W:=W) P (ret a).
Proof. intros st. exists []. by rewrite app_nil_r. Qed.

Lemma emits_panic {A} P : emits P (@panic W A).
Proof. intros st. exists []. by rewrite app_nil_r. Qed.

Lemma emits_get_d P : emits P (@get_d W).
Proof. intros st. exists []. by rewrite app_nil_r. Qed.

Lemma emits_modify_d P f : emits P (@modify_d W f).
Proof. intros st. exists []. by rewrite app_nil_r. Qed.

Lemma emits_UniqueId P : emits P (UniqueId (W:=W) UniqueId_of).
Proof. intros st. exists []. by rewrite app_nil_r. Qed.

Lemma emits_call {A} (P : Call → Prop) c (op : W → A * W) :
  P c → emits P (call c op).
Proof.
  intros Hc st. exists [c]. unfold call.
  destruct (op (remote st)) as [r w]. split; [done|]. by constructor.
Qed.

Lemma emits_bind {A B} P (m : M W A) (k : A → M W B) :
  emits P m → (∀ a, emits P (k a)) → emits P (bind m k).
Proof.
  intros Hm Hk st. unfold bind.
  destruct (Hm st) as (l1 & Hl1 & HP1).
  destruct (m st) as [[a|] st1]; simpl in *.
  - destruct (Hk a st1) as (l2 & Hl2 & HP2).
    exists (l1 ++ l2). rewrite Hl2, Hl1, app_assoc.
    split; [done|]. by apply Forall_app.
  - by exists l1.
Qed.

Lemma emits_mono {A} (P Q : Call → Prop) (m : M W A) :
  (∀ c, P c → Q c) → emits P m → emits Q m.
Proof.
  intros HPQ Hm st. destruct (Hm st) as (l & Hl & HP).
  exists l. split; [done|]. by eapply Forall_impl.
Qed.

Lemma emits_deref {A} P (p : option A) : emits P (@deref W A p).
Proof. destruct p; [apply emits_ret|apply emits_panic]. Qed.

Lemma emits_as_string P v : emits P (@as_string W v).
Proof. destruct v; first [apply emits_ret|apply emits_panic]. Qed.

Lemma emits_as_bool P v : emits P (@as_bool W v).
Proof. destruct v; first [apply emits_ret|apply emits_panic]. Qed.

Lemma emits_as_list P v : emits P (@as_list W v).
Proof. destruct v; first [apply emits_ret|apply emits_panic]. Qed.

Lemma emits_WaitForState_loop {R} P (conf : StateChangeConf W R) n :
  emits P (Refresh conf) → ∀ last, emits P (WaitForState_loop conf n last).
Proof.
  intros Hr. induction n as [|n IH]; intros last; cbn [WaitForState_loop].
  - apply emits_ret.
  - apply emits_bind; [done|]. intros [[res s] err].
    repeat case_match; first [apply emits_ret | apply IH].
Qed.

End Emits.

Ltac emits_step :=
  first
    [ apply emits_ret | apply emits_panic | apply emits_get_d
    | apply emits_modify_d | apply emits_UniqueId | apply emits_deref
    | apply emits_as_string | apply emits_as_bool | apply emits_as_list
    | apply emits_call; done
    | apply emits_bind; [|intros ?]
    | case_match ].

Section Lifecycle.
Context {W : Type}.
Variable conn : Conn W.
Variable UniqueId_of : nat → string.
Variable polls_within : Z → nat.

Lemma emits_Retrieve arn :
  emits is_read (resourceAwsGlobalAcceleratorAcceleratorRetrieve conn arn).
Proof.
  unfold resourceAwsGlobalAcceleratorAcceleratorRetrieve.
  repeat emits_step.
Qed.

Lemma emits_RefreshFunc arn :
  emits is_read
    (resourceAwsGlobalAcceleratorAcceleratorStateRefreshFunc conn arn).
Proof.
  unfold resourceAwsGlobalAcceleratorAcceleratorStateRefreshFunc.
  apply emits_bind; [apply emits_Retrieve|]. intros ?. repeat emits_step.
Qed.

Lemma emits_WaitForState arn timeout :
  emits is_read (WaitForState polls_within (stateConf conn arn timeout)).
Proof. apply emits_WaitForState_loop, emits_RefreshFunc. Qed.

Lemma emits_Read :
  emits is_read (resourceAwsGlobalAcceleratorAcceleratorRead conn).
Proof.
  unfold resourceAwsGlobalAcceleratorAcceleratorRead.
  apply emits_bind; [apply emits_get_d|]. intros d.
  apply emits_bind; [apply emits_Retrieve|]. intros ?.
  repeat emits_step.
Qed.

Lemma emits_UpdateAttributes arn attributes :
  emits is_update_attributes
    (resourceAwsGlobalAcceleratorAcceleratorUpdateAttributes
       conn arn attributes).
Proof.
  unfold resourceAwsGlobalAcceleratorAcceleratorUpdateAttributes.
  repeat emits_step.
Qed.

Lemma call_then_emits {A B} (P : Call → Prop) c (op : W → A * W)
    (k : A → M W B) st :
  (∀ a, emits P (k a)) →
  ∃ rest, calls (bind (call c op) k st).2 = calls st ++ c :: rest ∧
          Forall P rest.
Proof.
  intros Hk. unfold bind, call.
  destruct (op (remote st)) as [r w].
  destruct (Hk r (mkState (data st) w (calls st ++ [c]) (uniq st)))
    as (l & Hl & HP).
  exists l. split; [|done]. rewrite Hl. cbn [calls].
  by rewrite <- app_assoc.
Qed.

Lemma emits_lifecycle_rest (P : Call → Prop) :
  (∀ c, is_read c → P c) → (∀ c, is_update_attributes c → P c) →
  (∀ arn timeout,
     emits P (WaitForState polls_within (stateConf conn arn timeout))) ∧
  (∀ arn attributes,
     emits P (resourceAwsGlobalAcceleratorAcceleratorUpdateAttributes
                conn arn attributes)) ∧
  emits P (resourceAwsGlobalAcceleratorAcceleratorRead conn).
Proof.
  intros Hr Ha. split_and!; intros.
  - eapply emits_mono; [apply Hr|apply emits_WaitForState].
  - eapply emits_mono; [apply Ha|apply emits_UpdateAttributes].
  - eapply emits_mono; [apply Hr|apply emits_Read].
Qed.

(** ** Create *)

(** C10: the create request always carries an explicit Enabled, which is
    false when [enabled] is not set, and carries IpAddressType only when
    [ip_address_type] is set to a non-empty string; it is the first call
    Create issues and the only create request. *)
Theorem Create_always_sends_enabled st name ip b :
  Get (data st) "name" = VString name →
  Get (data st) "ip_address_type" = VString ip →
  Get (data st) "enabled" = VBool b →
  ∃ opts rest,
    calls (resourceAwsGlobalAcceleratorAcceleratorCreate
             conn UniqueId_of polls_within st).2 =
      calls st ++ CCreateAccelerator opts :: rest ∧
    Forall is_not_create rest ∧
    create_Name opts = Some name ∧
    create_Enabled opts = Some b ∧
    create_IpAddressType opts
      = (if bool_decide (ip = "") then None else Some ip) ∧
    (written (data st) !! "enabled" = None →
     planned (data st) !! "enabled" = None →
     create_Enabled opts = Some false) ∧
    (written (data st) !! "ip_address_type" = None →
     planned (data st) !! "ip_address_type" = None →
     create_IpAddressType opts = None).
Proof.
  intros Hn Hi He.
  exists (mkCreateAcceleratorInput (Some name)
            (Some (UniqueId_of (uniq st))) (Some b)
            (if bool_decide (ip = "") then None else Some ip)).
  assert (∃ rest,
    calls (resourceAwsGlobalAcceleratorAcceleratorCreate
             conn UniqueId_of polls_within st).2 =
      calls st ++ CCreateAccelerator
        (mkCreateAcceleratorInput (Some name)
           (Some (UniqueId_of (uniq st))) (Some b)
           (if bool_decide (ip = "") then None else Some ip)) :: rest ∧
    Forall is_not_create rest) as (rest & Hcalls & Hrest).
  { destruct (emits_lifecycle_rest is_not_create) as (Hw & Hu & Hr);
      [by intros []|by intros []|].
    unfold resourceAwsGlobalAcceleratorAcceleratorCreate.
    unfold bind at 1. cbn [get_d]. rewrite Hn.
    unfold bind at 1. cbn [as_string ret].
    unfold bind at 1. cbn [UniqueId].
    rewrite He. unfold bind at 1. cbn [as_bool ret].
    unfold GetOk. rewrite Hi.
    change (schema_zero "ip_address_type") with (VString "").
    destruct (decide (ip = "")) as [->|Hip].
    - rewrite bool_decide_eq_false_2 by (intros ?; done).
      unfold bind at 1. cbn [ret]. rewrite bool_decide_eq_true_2 by done.
      apply (call_then_emits is_not_create _ _ _
               (mkState (data st) (remote st) (calls st) (S (uniq st)))).
      intros resp.
      repeat first [apply Hw | apply Hu | apply Hr | emits_step].
    - rewrite bool_decide_eq_true_2 by congruence.
      unfold bind at 1. cbn [as_string ret]. unfold bind at 1. cbn [ret].
      rewrite bool_decide_eq_false_2 by done.
      apply (call_then_emits is_not_create _ _ _
               (mkState (data st) (remote st) (calls st) (S (uniq st)))).
      intros resp.
      repeat first [apply Hw | apply Hu | apply Hr | emits_step]. }
  exists rest. split_and!; try done.
  - intros Hw Hp. unfold Get in He. rewrite Hw, Hp in He.
    cbn in He. by injection He as <-.
  - intros Hw Hp. unfold Get in Hi. rewrite Hw, Hp in Hi.
    cbn in Hi. injection Hi as <-. done.
Qed.

(** ** Update *)

Lemma conforms_inv d :
  conforms d = true →
  ∃ name ip b l,
    Get d "name" = VString name ∧ Get d "ip_address_type" = VString ip ∧
    Get d "enabled" = VBool b ∧ Get d "attributes" = VList l ∧
    forallb block_conforms l = true.
Proof.
  unfold conforms. intros H.
  destruct (Get d "name") as [|name|]; try done.
  destruct (Get d "ip_address_type") as [|ip|]; try done.
  destruct (Get d "enabled") as [b| |]; try done.
  destruct (Get d "attributes") as [| |l]; try done.
  by exists name, ip, b, l.
Qed.

Lemma UpdateAttributes_run arn m st :
  block_conforms m = true →
  resourceAwsGlobalAcceleratorAcceleratorUpdateAttributes conn arn m st =
  (Return
     (Errorf "Error updating Global Accelerator accelerator attributes: "
        <$> (UpdateAcceleratorAttributes conn (attributes_input arn m)
               (remote st)).1),
   mkState (data st)
     (UpdateAcceleratorAttributes conn (attributes_input arn m) (remote st)).2
     (calls st ++ [CUpdateAcceleratorAttributes (attributes_input arn m)])
     (uniq st)).
Proof.
  unfold block_conforms, attributes_input,
    resourceAwsGlobalAcceleratorAcceleratorUpdateAttributes.
  intros Hm.
  destruct (m !! "flow_logs_enabled") as [[b| |]|]; try done.
  destruct (m !! "flow_logs_s3_bucket") as [[|s1|]|]; try done;
    destruct (m !! "flow_logs_s3_prefix") as [[|s2|]|]; try done;
    unfold bind, call, ret; cbn;
    destruct (UpdateAcceleratorAttributes conn _ (remote st)) as [[e|] w];
    done.
Qed.

Lemma count_app p l1 l2 : count p (l1 ++ l2) = count p l1 + count p l2.
Proof. unfold count. by rewrite List.filter_app, length_app. Qed.


Lemma issued_app (st st' : state W) l :
  calls st' = calls st ++ l → issued st st' = l.
Proof. unfold issued. intros ->. by rewrite drop_app_length. Qed.

Lemma count_cons p c l :
  count p (c :: l) = (if p c then 1 else 0) + count p l.
Proof. unfold count. cbn. by destruct (p c). Qed.

Lemma count_describes p arn j :
  p (CDescribeAccelerator arn) = false →
  count p (replicate j (CDescribeAccelerator arn)) = 0.
Proof.
  intros Hp. induction j as [|j IH]; [done|].
  cbn [replicate]. by rewrite count_cons, Hp, IH.
Qed.



(** C3: when the base update has succeeded and the wait after it has
    reached Deployed, a failure of the attributes update is what Update
    returns; nothing is sent after the failed call, the base update is the
    only one issued (no compensating update), the remote is left as the
    failed call left it, and the resource data stays in partial mode with
    name, ip_address_type and enabled recorded as applied and attributes
    not. *)
Theorem Update_keeps_base_change_on_attributes_failure
    st w1 x st2 m rest err w3 :
  let d := data st in
  let st1 := mkState (base_recorded d) w1
               (calls st ++ [CUpdateAccelerator (update_input d)])
               (uniq st) in
  conforms d = true →
  base_changed d = true →
  UpdateAccelerator conn (update_input d) (remote st) = (None, w1) →
  WaitForState polls_within
    (stateConf conn (Id d) (Timeout d TimeoutUpdate)) st1
    = (Return (x, None), st2) →
  HasChange d "attributes" = true →
  Get d "attributes" = VList (m :: rest) →
  UpdateAcceleratorAttributes conn (attributes_input (Id d) m) (remote st2)
    = (Some err, w3) →
  let run := resourceAwsGlobalAcceleratorAcceleratorUpdate
               conn polls_within st in
  run.1 = Return (Some (Errorf
            "Error updating Global Accelerator accelerator attributes: "
            err)) ∧
  remote run.2 = w3 ∧
  calls run.2 =
    calls st2 ++
    [CUpdateAcceleratorAttributes (attributes_input (Id d) m)] ∧
  count is_update (issued st run.2) = 1 ∧
  data run.2 = base_recorded d ∧
  partial (data run.2) = true ∧
  {[ "name"; "ip_address_type"; "enabled" ]} ⊆ partialMap (data run.2) ∧
  ("attributes" ∈ partialMap (data run.2) → "attributes" ∈ partialMap d).
Proof.
  clear UniqueId_of.
  intros d st1 Hconf Hb Hupd Hwait Hc Hget Hattr.
  destruct (conforms_inv _ Hconf)
    as (name & ip & b & l & Hn & Hi & He & Ha & Hl).
  fold d in Hn, Hi, He, Ha. rewrite Hget in Ha. injection Ha as <-.
  apply andb_prop in Hl as [Hm _].
  destruct (WaitForState_loop_terminates conn (Id d)
              (Timeout d TimeoutUpdate)
              (polls_within (Timeout d TimeoutUpdate)) "" st1)
    as (r & j & _ & Hpoll).
  assert (st2 = polled conn (Id d) j st1) as Hst2.
  { unfold WaitForState in Hwait. cbn [conf_Timeout stateConf] in Hwait.
    rewrite Hpoll in Hwait. by injection Hwait as _ <-. }
  assert (update_input d =
          mkUpdateAcceleratorInput (Some (Id d)) (Some name) (Some b)
            (if bool_decide (ip = "") then None else Some ip)) as Hopts.
  { unfold update_input. by rewrite Hn, He, Hi. }
  assert (resourceAwsGlobalAcceleratorAcceleratorUpdate conn polls_within st =
          (Return (Some (Errorf
             "Error updating Global Accelerator accelerator attributes: "
             err)),
           mkState (base_recorded d) w3
             (calls st2 ++
              [CUpdateAcceleratorAttributes (attributes_input (Id d) m)])
             (uniq st))) as Hrun.
  { unfold resourceAwsGlobalAcceleratorAcceleratorUpdate.
    unfold bind at 1. cbn [modify_d]. unfold bind at 1. cbn [get_d data].
    change (HasChange (Partial (data st) true)) with (HasChange d).
    change (Get (Partial (data st) true)) with (Get d).
    change (GetOk (Partial (data st) true)) with (GetOk d).
    change (Id (Partial (data st) true)) with (Id d).
    change (Timeout (Partial (data st) true)) with (Timeout d).
    fold (base_changed d). rewrite Hb, Hc, Hn, He, Hget.
    unfold GetOk. rewrite Hi.
    change (schema_zero "ip_address_type") with (VString "").
    unfold bind at 1. unfold bind at 1. cbn [as_string ret].
    unfold bind at 1. cbn [as_bool ret].
    unfold bind at 1.
    assert ((if bool_decide (VString ip ≠ VString "")
             then bind (ret ip)
                    (λ v, ret (mkUpdateAcceleratorInput
                                 (Some (Id d)) (Some name) (Some b)
                                 (Some v)))
             else ret (mkUpdateAcceleratorInput
                         (Some (Id d)) (Some name) (Some b) None))
            (mkState (Partial (data st) true) (remote st) (calls st)
                     (uniq st)) =
            (Return (update_input d),
             mkState (Partial (data st) true) (remote st) (calls st)
                     (uniq st))) as Hbuild.
    { rewrite Hopts. destruct (decide (ip = "")) as [->|Hip].
      - by rewrite bool_decide_eq_false_2, bool_decide_eq_true_2
          by (try done; by intros ?).
      - by rewrite bool_decide_eq_true_2, bool_decide_eq_false_2
          by (try done; congruence). }
    cbn [update_AcceleratorArn update_Name update_Enabled] in Hbuild |- *.
    rewrite Hbuild.
    unfold bind at 1, call at 1. cbn [remote data calls uniq].
    rewrite Hupd.
    unfold bind at 1. cbn [modify_d]. unfold bind at 1. cbn [modify_d].
    unfold bind at 1. cbn [modify_d data remote calls uniq].
    unfold bind at 1.
    change (WaitForState polls_within _ _)
      with (WaitForState polls_within
              (stateConf conn (Id d) (Timeout d TimeoutUpdate)) st1).
    rewrite Hwait. cbn [ret].
    unfold bind at 1. unfold bind at 1. cbn [as_list ret].
    unfold bind at 1. rewrite (UpdateAttributes_run _ _ _ Hm), Hattr.
    cbn [fmap option_fmap option_map fst snd ret].
    rewrite Hst2, polled_data, polled_uniq. done. }
  rewrite Hrun. cbn [fst snd data remote calls].
  split_and!; try done.
  - erewrite issued_app; last first.
    { cbn [calls]. rewrite Hst2, polled_calls. subst st1. cbn [calls].
      rewrite <- !app_assoc. done. }
    cbn [app]. rewrite count_cons, count_app, count_describes by done.
    done.
  - unfold base_recorded, SetPartial. cbn. set_unfold. intros k. tauto.
  - unfold base_recorded, SetPartial. cbn. set_unfold.
    by intros [?|[?|[?|?]]].
Qed.

End Lifecycle.

(** ** Lifecycle runs on the scripted client *)

(** Create with only [name] set: Enabled is sent as false and
    IpAddressType is left out. *)
Lemma Create_always_sends_enabled_witness :
  ∃ opts rest,
    calls (resourceAwsGlobalAcceleratorAcceleratorCreate scripted
             (λ _, "terraform-1") three_polls
             (start (resource_data "" ∅ {[ "name" := VString "example" ]})
                    quiet)).2
      = CCreateAccelerator opts :: rest ∧
    create_Enabled opts = Some false ∧
    create_IpAddressType opts = None.
Proof.
  destruct (Create_always_sends_enabled scripted (λ _, "terraform-1")
              three_polls
              (start (resource_data "" ∅ {[ "name" := VString "example" ]})
                     quiet)
              "example" "" false)
    as (opts & rest & Hcalls & _ & _ & _ & _ & Hen & Hip);
    [reflexivity|reflexivity|reflexivity|].
  exists opts, rest.
  split_and!; [exact Hcalls|by apply Hen|by apply Hip].
Defined.



(** The same with every call succeeding: when the change removes the
    block, the guard on the length of the list (line 287) skips the
    call. *)
Example Update_skips_attributes_when_block_removed :
  let st := start (resource_data arn1
                     {[ "name" := VString "example";
                        "attributes" := VList [flow_logs] ]}
                     {[ "name" := VString "example" ]})
                  (with_describe quiet [deployed]) in
  let run := resourceAwsGlobalAcceleratorAcceleratorUpdate
               scripted three_polls st in
  HasChange (data st) "attributes" = true ∧
  run.1 = Return None ∧
  issued st run.2 =
    [CDescribeAccelerator arn1; CDescribeAcceleratorAttributes arn1].
Proof. intros st run. by split_and!. Qed.

(** The same change when the attributes update is throttled. *)
Lemma Update_keeps_base_change_on_attributes_failure_witness :
  let st := start renamed
              (with_update_attributes (with_describe quiet [deployed])
                 (Some throttled)) in
  let run := resourceAwsGlobalAcceleratorAcceleratorUpdate
               scripted three_polls st in
  run.1 = Return (Some (errorString
    "Error updating Global Accelerator accelerator attributes: ThrottlingException: slow down")) ∧
  count is_update (issued st run.2) = 1 ∧
  partial (data run.2) = true ∧
  "name" ∈ partialMap (data run.2).
Proof.
  intros st run.
  destruct (Update_keeps_base_change_on_attributes_failure
              scripted three_polls st
              (with_update_attributes (with_describe quiet [deployed])
                 (Some throttled))
              (Some (accelerator_with AcceleratorStatusDeployed))
              (mkState (base_recorded renamed)
                 (with_update_attributes quiet (Some throttled))
                 [CUpdateAccelerator (update_input renamed);
                  CDescribeAccelerator arn1] 0)
              flow_logs [] throttled
              (with_update_attributes quiet (Some throttled)))
    as (Hres & _ & _ & Hcount & _ & Hpartial & Hkeys & _);
    [reflexivity..|].
  split_and!; [exact Hres|exact Hcount|exact Hpartial|].
  apply Hkeys. set_unfold. tauto.
Defined.

(** * Further properties of the resource *)

(** ** The IP set flattener *)



(** ** Read *)

Section ReadRuns.
Context {W : Type}.
Variable conn : Conn W.

(** Every run of Read, by what the two describe calls answer. *)
Lemma Read_run st :
  resourceAwsGlobalAcceleratorAcceleratorRead conn st =
  let id := Id (data st) in
  let st1 := polled1 conn id st in
  match observation conn id 0 st with
  | inl err =>
      if isAWSErr err ErrCodeAcceleratorNotFoundException
      then (Panic, st1)
      else (Return (Some (Errorf
              "Error reading Global Accelerator accelerator: " err)), st1)
  | inr None => (Panic, st1)
  | inr (Some a) =>
      let cs := calls st1 ++ [CDescribeAcceleratorAttributes id] in
      match DescribeAcceleratorAttributes conn id (remote st1) with
      | (inl err, w) =>
          (Return (Some (Errorf
             "Error reading Global Accelerator accelerator attributes: "
             err)),
           mkState (read_base (data st) a) w cs (uniq st))
      | (inr attributes, w) =>
          (Return None,
           mkState
             (Set_ (read_base (data st) a) "attributes"
                (VList (resourceAwsGlobalAcceleratorAcceleratorFlattenAttributes
                          attributes)))
             w cs (uniq st))
      end
  end.
Proof.
  unfold resourceAwsGlobalAcceleratorAcceleratorRead.
  unfold bind at 1. cbn [get_d]. unfold bind at 1. rewrite Retrieve_run.
  cbv zeta.
  destruct (observation conn (Id (data st)) 0 st) as [err|[a|]].
  - destruct (isAWSErr err _) eqn:Hnf; [done|]. by rewrite Hnf.
  - unfold bind, call, modify_d, get_d, deref, ret. cbn.
    destruct (DescribeAcceleratorAttributes conn _ _) as [[err|attrs] w]; done.
  - done.
Qed.

(** X17: Retrieve makes exactly one call and never returns an accelerator
    together with an error, nor a "not found" error: a "not found" answer
    comes back as no accelerator and no error, any other error comes back
    unchanged, and an answer without error comes back as it is. *)
Theorem Retrieve_absorbs_not_found arn st :
  ∃ accelerator err,
    resourceAwsGlobalAcceleratorAcceleratorRetrieve conn arn st =
      (Return (accelerator, err), polled1 conn arn st) ∧
    (∀ e, err = Some e →
       accelerator = None ∧
       isAWSErr e ErrCodeAcceleratorNotFoundException = false ∧
       observation conn arn 0 st = inl e) ∧
    (is_not_found (observation conn arn 0 st) = true →
       accelerator = None ∧ err = None) ∧
    (∀ a, observation conn arn 0 st = inr a →
       accelerator = a ∧ err = None).
Proof.
  rewrite Retrieve_run.
  destruct (observation conn arn 0 st) as [e|a] eqn:Ho.
  - destruct (isAWSErr e _) eqn:Hnf; eexists _, _; (split; [done|]).
    + split_and!; [done|done|done].
    + split_and!; [by intros ? [= <-]| |done].
      cbn. by rewrite Hnf.
  - eexists _, _. split; [done|].
    split_and!; [done|done|by intros ? [= <-]].
Qed.

Lemma Get_Set_eq d key v : Get (Set_ d key v) key = v.
Proof. unfold Get, Set_. cbn. by rewrite lookup_insert_eq. Qed.

Lemma Get_Set_ne d key key' v :
  key ≠ key' → Get (Set_ d key v) key' = Get d key'.
Proof. intros Hne. unfold Get, Set_. cbn. by rewrite lookup_insert_ne. Qed.

Lemma set_only_refl keys d : set_only keys d d.
Proof. by repeat split. Qed.

Lemma set_only_Set keys d d' key v :
  key ∈ keys → set_only keys d d' → set_only keys d (Set_ d' key v).
Proof.
  intros Hkey (? & ? & ? & ? & ? & ? & Hw). repeat split; try done.
  intros k Hk. cbn. rewrite lookup_insert_ne; [by apply Hw|].
  by intros ->.
Qed.

Lemma set_only_read_base d a : set_only read_keys d (read_base d a).
Proof.
  unfold read_base.
  repeat (apply set_only_Set; [unfold read_keys; set_solver|]).
  apply set_only_refl.
Qed.


(** X3: a failure of the attributes fetch is an error of Read whatever
    its code, "not found" included: Read returns it wrapped, keeps the id,
    has already stored the base fields and leaves the stored attributes
    as they were. *)
Theorem Read_attributes_error_is_returned st a err w :
  let id := Id (data st) in
  observation conn id 0 st = inr (Some a) →
  DescribeAcceleratorAttributes conn id (remote (polled1 conn id st))
    = (inl err, w) →
  let run := resourceAwsGlobalAcceleratorAcceleratorRead conn st in
  run.1 = Return (Some (Errorf
    "Error reading Global Accelerator accelerator attributes: " err)) ∧
  Id (data run.2) = id ∧
  data run.2 = read_base (data st) a ∧
  Get (data run.2) "name" = VString (default "" (Name a)) ∧
  Get (data run.2) "attributes" = Get (data st) "attributes".
Proof.
  intros id Ho Ha run. subst run. rewrite Read_run. fold id.
  cbv zeta. rewrite Ho, Ha. cbn [fst snd data].
  split_and!; try done.
  - unfold read_base. by rewrite !Get_Set_ne, Get_Set_eq by done.
  - unfold read_base. by rewrite !Get_Set_ne by done.
Qed.

(** X4: an error of the describe call other than "not found" is what Read
    returns, wrapped; nothing is stored and no second call is made. *)
Theorem Read_describe_error_is_returned st err :
  let id := Id (data st) in
  observation conn id 0 st = inl err →
  isAWSErr err ErrCodeAcceleratorNotFoundException = false →
  let run := resourceAwsGlobalAcceleratorAcceleratorRead conn st in
  run.1 = Return (Some (Errorf
    "Error reading Global Accelerator accelerator: " err)) ∧
  data run.2 = data st ∧
  issued st run.2 = [CDescribeAccelerator id].
Proof.
  intros id Ho Hnf run. subst run. rewrite Read_run. fold id.
  cbv zeta. rewrite Ho, Hnf. cbn [fst snd data].
  split_and!; try done. by apply issued_app.
Qed.

Lemma Read_set_only st :
  set_only read_keys (data st)
    (data (resourceAwsGlobalAcceleratorAcceleratorRead conn st).2).
Proof.
  rewrite Read_run. cbv zeta.
  destruct (observation conn (Id (data st)) 0 st) as [err|[a|]];
    [destruct (isAWSErr err _); apply set_only_refl| |apply set_only_refl].
  destruct (DescribeAcceleratorAttributes conn _ _) as [[err|attrs] w];
    cbn [snd data]; [apply set_only_read_base|].
  apply set_only_Set; [unfold read_keys; set_solver|].
  apply set_only_read_base.
Qed.

(** X5: whatever the client answers, Read changes nothing of the
    resource data but the values stored under its five keys: the id, the
    prior and planned state, partial mode and the timeouts stay as they
    were, and in particular the id is never cleared.  It makes at most two
    calls, both of them reads, and stores nothing unless the accelerator
    was found. *)
Theorem Read_changes_only_stored_values st :
  let run := resourceAwsGlobalAcceleratorAcceleratorRead conn st in
  set_only read_keys (data st) (data run.2) ∧
  uniq run.2 = uniq st ∧
  (length (issued st run.2) ≤ 2)%nat ∧
  Forall is_read (issued st run.2) ∧
  ((∀ a, observation conn (Id (data st)) 0 st ≠ inr (Some a)) →
   data run.2 = data st).
Proof.
  cbv zeta. rewrite Read_run. cbv zeta.
  assert (issued st (polled1 conn (Id (data st)) st)
          = [CDescribeAccelerator (Id (data st))]) as Hone
    by (by apply issued_app).
  destruct (observation conn (Id (data st)) 0 st) as [err|[a|]].
  - destruct (isAWSErr err _); cbn [fst snd]; rewrite Hone;
      (split_and!;
       [apply set_only_refl|done|cbn; lia|by repeat constructor|done]).
  - destruct (DescribeAcceleratorAttributes conn _ _) as [[err|attrs] w];
      cbn [fst snd data uniq];
      (split_and!;
       [|done|
        |
        |by intros Hno; destruct (Hno a)]).
    + apply set_only_read_base.
    + erewrite issued_app; [|cbn [calls polled1]; by rewrite <- app_assoc].
      cbn. lia.
    + erewrite issued_app; [|cbn [calls polled1]; by rewrite <- app_assoc].
      by repeat constructor.
    + apply set_only_Set; [unfold read_keys; set_solver|].
      apply set_only_read_base.
    + erewrite issued_app; [|cbn [calls polled1]; by rewrite <- app_assoc].
      cbn. lia.
    + erewrite issued_app; [|cbn [calls polled1]; by rewrite <- app_assoc].
      by repeat constructor.
  - cbn [fst snd]. rewrite Hone.
    split_and!; [apply set_only_refl|done|cbn; lia|by repeat constructor|done].
Qed.

End ReadRuns.

(** ** The frame of the lifecycle operations *)

Section Frames.
Context {W : Type}.
Variable conn : Conn W.
Variable UniqueId_of : nat → string.
Variable polls_within : Z → nat.

Lemma frame_refl (st : state W) : frame st st.
Proof. by repeat split. Qed.

Lemma frame_trans (st1 st2 st3 : state W) :
  frame st1 st2 → frame st2 st3 → frame st1 st3.
Proof.
  intros (? & ? & ? & ?) (? & ? & ? & ?). repeat split; congruence.
Qed.

Lemma keeps_ret {A} (a : A) : keeps (W:=W) (ret a).
Proof. intros st. apply frame_refl. Qed.

Lemma keeps_panic {A} : keeps (@panic W A).
Proof. intros st. apply frame_refl. Qed.

Lemma keeps_get_d : keeps (@get_d W).
Proof. intros st. apply frame_refl. Qed.

Lemma keeps_call {A} c (op : W → A * W) : keeps (call c op).
Proof.
  intros st. unfold call. destruct (op (remote st)). by repeat split.
Qed.

Lemma keeps_bind {A B} (m : M W A) (k : A → M W B) :
  keeps m → (∀ a, keeps (k a)) → keeps (bind m k).
Proof.
  intros Hm Hk st. unfold bind. specialize (Hm st).
  destruct (m st) as [[a|] st1]; [|done].
  eapply frame_trans; [done|apply Hk].
Qed.

Lemma keeps_Set key v : keeps (W:=W) (modify_d (λ d, Set_ d key v)).
Proof. intros st. by repeat split. Qed.

Lemma keeps_Partial on : keeps (W:=W) (modify_d (λ d, Partial d on)).
Proof. intros st. by repeat split. Qed.

Lemma keeps_SetPartial key :
  keeps (W:=W) (modify_d (λ d, SetPartial d key)).
Proof.
  intros st. unfold modify_d, SetPartial, frame. cbn.
  by destruct (partial (data st)).
Qed.

Lemma keeps_deref {A} (p : option A) : keeps (@deref W A p).
Proof. destruct p; [apply keeps_ret|apply keeps_panic]. Qed.

Lemma keeps_as_string v : keeps (@as_string W v).
Proof. destruct v; first [apply keeps_ret|apply keeps_panic]. Qed.

Lemma keeps_as_bool v : keeps (@as_bool W v).
Proof. destruct v; first [apply keeps_ret|apply keeps_panic]. Qed.

Lemma keeps_as_list v : keeps (@as_list W v).
Proof. destruct v; first [apply keeps_ret|apply keeps_panic]. Qed.

Lemma keeps_WaitForState_loop {R} (conf : StateChangeConf W R) n :
  keeps (Refresh conf) → ∀ last, keeps (WaitForState_loop conf n last).
Proof.
  intros Hr. induction n as [|n IH]; intros last; cbn [WaitForState_loop].
  - apply keeps_ret.
  - apply keeps_bind; [done|]. intros [[res s] err].
    repeat case_match; first [apply keeps_ret | apply IH].
Qed.

End Frames.

Ltac keeps_step :=
  first
    [ apply keeps_ret | apply keeps_panic | apply keeps_get_d
    | apply keeps_Set | apply keeps_Partial | apply keeps_SetPartial
    | apply keeps_deref | apply keeps_as_string | apply keeps_as_bool
    | apply keeps_as_list | apply keeps_call
    | apply keeps_bind; [|intros ?]
    | case_match ].

Section Lifecycle_frames.
Context {W : Type}.
Variable conn : Conn W.
Variable UniqueId_of : nat → string.
Variable polls_within : Z → nat.

Lemma keeps_Read : keeps (resourceAwsGlobalAcceleratorAcceleratorRead conn).
Proof.
  intros st. rewrite Read_run. cbv zeta.
  destruct (observation conn (Id (data st)) 0 st) as [err|[a|]];
    [by destruct (isAWSErr err _)| |done].
  destruct (DescribeAcceleratorAttributes conn _ _) as [[err|attrs] w];
    by repeat split.
Qed.

Lemma keeps_Retrieve arn :
  keeps (resourceAwsGlobalAcceleratorAcceleratorRetrieve conn arn).
Proof.
  unfold resourceAwsGlobalAcceleratorAcceleratorRetrieve.
  repeat keeps_step.
Qed.

Lemma keeps_WaitForState arn timeout :
  keeps (WaitForState polls_within (stateConf conn arn timeout)).
Proof.
  apply keeps_WaitForState_loop. cbn [Refresh stateConf].
  unfold resourceAwsGlobalAcceleratorAcceleratorStateRefreshFunc.
  apply keeps_bind; [apply keeps_Retrieve|]. intros ?. repeat keeps_step.
Qed.

Lemma keeps_UpdateAttributes arn attributes :
  keeps (resourceAwsGlobalAcceleratorAcceleratorUpdateAttributes
           conn arn attributes).
Proof.
  unfold resourceAwsGlobalAcceleratorAcceleratorUpdateAttributes.
  repeat keeps_step.
Qed.

(** X12: whatever the client answers and whatever the resource data
    holds, Update leaves the id, the prior state, the planned state and
    the timeouts of the resource data as they were. *)
Theorem Update_keeps_id_and_plan st :
  frame st
    (resourceAwsGlobalAcceleratorAcceleratorUpdate conn polls_within st).2.
Proof.
  revert st.
  change (keeps (resourceAwsGlobalAcceleratorAcceleratorUpdate
                   conn polls_within)).
  unfold resourceAwsGlobalAcceleratorAcceleratorUpdate.
  repeat first
    [ apply keeps_WaitForState | apply keeps_UpdateAttributes
    | apply keeps_Read | keeps_step ].
Qed.

(** X15: Delete never panics: it makes exactly one call, the delete of
    the current id, leaves the resource data as it is, and returns
    success exactly when the client accepted the request or answered
    "not found". *)
Theorem Delete_makes_one_call st :
  let id := Id (data st) in
  let answer := DeleteAccelerator conn id (remote st) in
  ∃ r,
    resourceAwsGlobalAcceleratorAcceleratorDelete conn st =
    (Return r,
     mkState (data st) answer.2 (calls st ++ [CDeleteAccelerator id])
             (uniq st)) ∧
    (r = None ↔
     answer.1 = None ∨
     ∃ err, answer.1 = Some err ∧
       isAWSErr err ErrCodeAcceleratorNotFoundException = true).
Proof.
  cbv zeta.
  unfold resourceAwsGlobalAcceleratorAcceleratorDelete, bind, get_d, call.
  destruct (DeleteAccelerator conn (Id (data st)) (remote st))
    as [[err|] w]; cbn.
  - destruct (isAWSErr err _) eqn:Hnf; eexists; (split; [done|]).
    + split; [|done]. intros _. right. by exists err.
    + split; [done|]. intros [?|(e & [= <-] & ?)]; congruence.
  - eexists. split; [done|]. split; [|done]. by left.
Qed.

(** ** Create *)

Lemma base_conforms_inv d :
  base_conforms d = true →
  ∃ name ip b,
    Get d "name" = VString name ∧ Get d "ip_address_type" = VString ip ∧
    Get d "enabled" = VBool b.
Proof.
  unfold base_conforms. intros H.
  destruct (Get d "name") as [|name|]; try done.
  destruct (Get d "ip_address_type") as [|ip|]; try done.
  destruct (Get d "enabled") as [b| |]; try done.
  by exists name, ip, b.
Qed.

Lemma create_input_eq d token name ip b :
  Get d "name" = VString name → Get d "ip_address_type" = VString ip →
  Get d "enabled" = VBool b →
  create_input d token =
  mkCreateAcceleratorInput (Some name) (Some token) (Some b)
    (if bool_decide (ip = "") then None else Some ip).
Proof. intros Hn Hi He. unfold create_input. by rewrite Hn, Hi, He. Qed.

(** Runs Create up to the answer of its first call, given the types of
    the three base fields. *)
Ltac create_to_answer Hn Hi He ip :=
  unfold resourceAwsGlobalAcceleratorAcceleratorCreate;
  unfold bind at 1; cbn [get_d]; rewrite Hn;
  unfold bind at 1; cbn [as_string ret];
  unfold bind at 1; cbn [UniqueId];
  rewrite He; unfold bind at 1; cbn [as_bool ret];
  unfold GetOk; rewrite Hi;
  change (schema_zero "ip_address_type") with (VString "");
  destruct (decide (ip = "")) as [->|?];
  [ rewrite bool_decide_eq_false_2 by (intros ?; done);
    rewrite ?bool_decide_eq_true_2 by done;
    unfold bind at 1; cbn [ret]
  | rewrite bool_decide_eq_true_2 by congruence;
    rewrite ?bool_decide_eq_false_2 by done;
    unfold bind at 1; cbn [as_string ret]; unfold bind at 1;
    cbn [ret create_Name create_IdempotencyToken create_Enabled] ];
  unfold bind at 1, call at 1; cbn [remote data calls uniq].

(** X7: when the client refuses the create request, Create returns the
    error wrapped, after that one call; the id is not set and the
    resource data is as it was. *)
Theorem Create_refused_sets_nothing st err w :
  let opts := create_input (data st) (UniqueId_of (uniq st)) in
  base_conforms (data st) = true →
  CreateAccelerator conn opts (remote st) = (inl err, w) →
  resourceAwsGlobalAcceleratorAcceleratorCreate
    conn UniqueId_of polls_within st =
  (Return (Some (Errorf
     "Error creating Global Accelerator accelerator: " err)),
   mkState (data st) w (calls st ++ [CCreateAccelerator opts])
           (S (uniq st))).
Proof.
  intros opts (name & ip & b & Hn & Hi & He)%base_conforms_inv Hcreate.
  subst opts. rewrite (create_input_eq _ _ name ip b Hn Hi He) in Hcreate |- *.
  create_to_answer Hn Hi He ip.
  - rewrite bool_decide_eq_true_2 in Hcreate by done. by rewrite Hcreate.
  - rewrite bool_decide_eq_false_2 in Hcreate by done. by rewrite Hcreate.
Qed.

(** X8: once the client has accepted the create request, the id of the
    resource data is the ARN it answered, however the rest of Create goes:
    a wait that times out, a refused attributes update, a failing Read or
    a panic all leave the new id in place; the prior and planned state and
    the timeouts are not touched. *)
Theorem Create_records_the_arn st a arn w :
  let opts := create_input (data st) (UniqueId_of (uniq st)) in
  base_conforms (data st) = true →
  CreateAccelerator conn opts (remote st) = (inr (Some a), w) →
  AcceleratorArn a = Some arn →
  let run := resourceAwsGlobalAcceleratorAcceleratorCreate
               conn UniqueId_of polls_within st in
  Id (data run.2) = arn ∧ prior (data run.2) = prior (data st) ∧
  planned (data run.2) = planned (data st) ∧
  timeouts (data run.2) = timeouts (data st).
Proof.
  intros opts (name & ip & b & Hn & Hi & He)%base_conforms_inv Hcreate Harn.
  subst opts. rewrite (create_input_eq _ _ name ip b Hn Hi He) in Hcreate.
  cbv zeta.
  enough (frame (mkState (SetId (data st) arn) (remote st) (calls st)
                         (uniq st))
            (resourceAwsGlobalAcceleratorAcceleratorCreate
               conn UniqueId_of polls_within st).2)
    as (? & ? & ? & ?) by done.
  create_to_answer Hn Hi He ip.
  all: rewrite ?bool_decide_eq_true_2, ?bool_decide_eq_false_2 in Hcreate
         by done.
  all: rewrite Hcreate.
  all: unfold bind at 1; cbn [deref ret]; rewrite Harn.
  all: unfold bind at 1; cbn [deref ret].
  all: unfold bind at 1; cbn [modify_d].
  all: unfold bind at 1; cbn [get_d data remote calls uniq].
  all: lazymatch goal with
       | |- frame _ (?m ?s).2 =>
           apply (frame_trans _ s); [by repeat split|];
           assert (keeps m) as Hk; [|apply Hk]
       end.
  all: repeat first
         [ apply keeps_WaitForState | apply keeps_UpdateAttributes
         | apply keeps_Read | keeps_step ].
Qed.

(** X16: after the wait has reached Deployed, Create sends the desired
    attributes block for the ARN the create call answered, not for the id
    the resource data held before; when that request is refused Create
    returns its error without reading the accelerator back, and otherwise
    it ends with Read. *)
Theorem Create_applies_attributes_to_new_arn st a arn w x st2 m rest :
  let opts := create_input (data st) (UniqueId_of (uniq st)) in
  let d1 := SetId (data st) arn in
  let st1 := mkState d1 w (calls st ++ [CCreateAccelerator opts])
               (S (uniq st)) in
  base_conforms (data st) = true →
  CreateAccelerator conn opts (remote st) = (inr (Some a), w) →
  AcceleratorArn a = Some arn →
  WaitForState polls_within
    (stateConf conn arn (Timeout (data st) TimeoutCreate)) st1
    = (Return (x, None), st2) →
  Get (data st) "attributes" = VList (m :: rest) →
  block_conforms m = true →
  let request := attributes_input arn m in
  let answer := UpdateAcceleratorAttributes conn request (remote st2) in
  let st3 := mkState d1 answer.2
               (calls st2 ++ [CUpdateAcceleratorAttributes request])
               (S (uniq st)) in
  resourceAwsGlobalAcceleratorAcceleratorCreate
    conn UniqueId_of polls_within st =
  match answer.1 with
  | Some err =>
      (Return (Some (Errorf
         "Error updating Global Accelerator accelerator attributes: " err)),
       st3)
  | None => resourceAwsGlobalAcceleratorAcceleratorRead conn st3
  end.
Proof.
  intros opts d1 st1 (name & ip & b & Hn & Hi & He)%base_conforms_inv
    Hcreate Harn Hwait Hget Hm.
  destruct (WaitForState_loop_terminates conn arn
              (Timeout (data st) TimeoutCreate)
              (polls_within (Timeout (data st) TimeoutCreate)) "" st1)
    as (r & j & _ & Hpoll).
  assert (st2 = polled conn arn j st1) as Hst2.
  { unfold WaitForState in Hwait. cbn [conf_Timeout stateConf] in Hwait.
    rewrite Hpoll in Hwait. by injection Hwait as _ <-. }
  assert (data st2 = d1 ∧ uniq st2 = S (uniq st)) as [Hd2 Hu2].
  { by rewrite Hst2, polled_data, polled_uniq. }
  subst opts st1.
  rewrite (create_input_eq _ _ name ip b Hn Hi He) in Hcreate, Hwait.
  intros request answer st3. subst request answer st3 d1.
  create_to_answer Hn Hi He ip.
  all: rewrite ?bool_decide_eq_true_2, ?bool_decide_eq_false_2
         in Hcreate, Hwait by done.
  all: rewrite Hcreate.
  all: unfold bind at 1; cbn [deref ret]; rewrite Harn.
  all: unfold bind at 1; cbn [deref ret].
  all: unfold bind at 1; cbn [modify_d].
  all: unfold bind at 1; cbn [get_d data remote calls uniq].
  all: change (Id (SetId (data st) arn)) with arn.
  all: change (Timeout (SetId (data st) arn)) with (Timeout (data st)).
  all: change (Get (SetId (data st) arn)) with (Get (data st)).
  all: unfold bind at 1.
  all: change (WaitForState polls_within _ ?s)
         with (WaitForState polls_within
                 (stateConf conn arn (Timeout (data st) TimeoutCreate)) s).
  all: rewrite Hwait, Hget.
  all: unfold bind at 1; cbn [as_list ret].
  all: unfold bind at 1; rewrite (UpdateAttributes_run _ _ _ _ Hm).
  all: rewrite Hd2, Hu2.
  all: by destruct (UpdateAcceleratorAttributes conn _ (remote st2))
         as [[err|] w3].
Qed.

(** ** The calls each operation may issue *)

(** X6: whatever the client answers and whatever the resource data holds,
    Read issues only the two describe calls, Delete only the delete call,
    Create never a base update or a delete, and Update never a create or
    a delete. *)
Theorem lifecycle_calls_stay_in_role :
  emits is_read (resourceAwsGlobalAcceleratorAcceleratorRead conn) ∧
  emits is_delete (resourceAwsGlobalAcceleratorAcceleratorDelete conn) ∧
  emits in_create_role
    (resourceAwsGlobalAcceleratorAcceleratorCreate
       conn UniqueId_of polls_within) ∧
  emits in_update_role
    (resourceAwsGlobalAcceleratorAcceleratorUpdate conn polls_within).
Proof.
  split_and!.
  - apply emits_Read.
  - unfold resourceAwsGlobalAcceleratorAcceleratorDelete.
    repeat emits_step.
  - destruct (emits_lifecycle_rest conn polls_within in_create_role)
      as (Hw & Hu & Hr); [by intros []|by intros []|].
    unfold resourceAwsGlobalAcceleratorAcceleratorCreate.
    repeat first [apply Hw | apply Hu | apply Hr | emits_step].
  - destruct (emits_lifecycle_rest conn polls_within in_update_role)
      as (Hw & Hu & Hr); [by intros []|by intros []|].
    unfold resourceAwsGlobalAcceleratorAcceleratorUpdate.
    repeat first [apply Hw | apply Hu | apply Hr | emits_step].
Qed.

(** ** Update *)

Lemma update_input_eq d name ip b :
  Get d "name" = VString name → Get d "ip_address_type" = VString ip →
  Get d "enabled" = VBool b →
  update_input d =
  mkUpdateAcceleratorInput (Some (Id d)) (Some name) (Some b)
    (if bool_decide (ip = "") then None else Some ip).
Proof. intros Hn Hi He. unfold update_input. by rewrite Hn, Hi, He. Qed.

(** Runs Update, when a base field differs, up to the answer of the base
    update, given the types of the three base fields. *)
Ltac update_to_answer st Hb Hn Hi He ip :=
  unfold resourceAwsGlobalAcceleratorAcceleratorUpdate;
  unfold bind at 1; cbn [modify_d]; unfold bind at 1; cbn [get_d data];
  change (HasChange (Partial (data st) true)) with (HasChange (data st));
  change (Get (Partial (data st) true)) with (Get (data st));
  change (GetOk (Partial (data st) true)) with (GetOk (data st));
  change (Id (Partial (data st) true)) with (Id (data st));
  change (Timeout (Partial (data st) true)) with (Timeout (data st));
  fold (base_changed (data st)); rewrite Hb, Hn, He;
  unfold GetOk; rewrite Hi;
  change (schema_zero "ip_address_type") with (VString "");
  unfold bind at 1; unfold bind at 1; cbn [as_string ret];
  unfold bind at 1; cbn [as_bool ret];
  unfold bind at 1;
  destruct (decide (ip = "")) as [->|?];
  [ rewrite bool_decide_eq_false_2 by (intros ?; done);
    rewrite ?bool_decide_eq_true_2 by done;
    cbn [ret]
  | rewrite bool_decide_eq_true_2 by congruence;
    rewrite ?bool_decide_eq_false_2 by done;
    unfold bind at 1;
    cbn [ret update_AcceleratorArn update_Name update_Enabled] ];
  unfold bind at 1, call at 1; cbn [remote data calls uniq].

(** X9: when the client refuses the base update, Update returns the error
    wrapped after that one call; the resource data is in partial mode with
    no key recorded as applied, and neither the wait, the attributes step
    nor the closing Read is run. *)
Theorem Update_refused_records_nothing st err w1 :
  let d := data st in
  base_conforms d = true →
  base_changed d = true →
  UpdateAccelerator conn (update_input d) (remote st) = (Some err, w1) →
  let run := resourceAwsGlobalAcceleratorAcceleratorUpdate
               conn polls_within st in
  run = (Return (Some (Errorf
           "Error updating Global Accelerator accelerator: " err)),
         mkState (Partial d true) w1
           (calls st ++ [CUpdateAccelerator (update_input d)]) (uniq st)) ∧
  partial (data run.2) = true ∧
  partialMap (data run.2) = partialMap d.
Proof.
  intros d (name & ip & b & Hn & Hi & He)%base_conforms_inv Hb Hupd.
  subst d. rewrite (update_input_eq _ name ip b Hn Hi He) in Hupd |- *.
  cbv zeta.
  assert (resourceAwsGlobalAcceleratorAcceleratorUpdate conn polls_within st
          = (Return (Some (Errorf
               "Error updating Global Accelerator accelerator: " err)),
             mkState (Partial (data st) true) w1
               (calls st ++
                [CUpdateAccelerator
                   (mkUpdateAcceleratorInput (Some (Id (data st)))
                      (Some name) (Some b)
                      (if bool_decide (ip = "") then None else Some ip))])
               (uniq st))) as Hrun.
  { update_to_answer st Hb Hn Hi He ip.
    all: rewrite ?bool_decide_eq_true_2, ?bool_decide_eq_false_2 in Hupd
           by done.
    all: by rewrite Hupd. }
  by rewrite Hrun.
Qed.

(** X10: when the base update is accepted but the wait after it fails,
    Update returns the error of the wait, wrapped with the id; the three
    base keys are already recorded as applied, and the attributes step is
    not attempted even if the attributes differ. *)
Theorem Update_wait_failure_keeps_record st w1 x e st2 :
  let d := data st in
  let st1 := mkState (base_recorded d) w1
               (calls st ++ [CUpdateAccelerator (update_input d)])
               (uniq st) in
  base_conforms d = true →
  base_changed d = true →
  UpdateAccelerator conn (update_input d) (remote st) = (None, w1) →
  WaitForState polls_within
    (stateConf conn (Id d) (Timeout d TimeoutUpdate)) st1
    = (Return (x, Some e), st2) →
  let run := resourceAwsGlobalAcceleratorAcceleratorUpdate
               conn polls_within st in
  run = (Return (Some (Errorf
           ("Error waiting for Global Accelerator accelerator ("
              +:+ Id d +:+ ") availability: ") e)), st2) ∧
  data st2 = base_recorded d ∧
  {[ "name"; "ip_address_type"; "enabled" ]} ⊆ partialMap (data st2) ∧
  count is_attributes_update (issued st st2) = 0.
Proof.
  clear UniqueId_of.
  intros d st1 (name & ip & b & Hn & Hi & He)%base_conforms_inv
    Hb Hupd Hwait.
  destruct (WaitForState_loop_terminates conn (Id d)
              (Timeout d TimeoutUpdate)
              (polls_within (Timeout d TimeoutUpdate)) "" st1)
    as (r & j & _ & Hpoll).
  assert (st2 = polled conn (Id d) j st1) as Hst2.
  { unfold WaitForState in Hwait. cbn [conf_Timeout stateConf] in Hwait.
    rewrite Hpoll in Hwait. by injection Hwait as _ <-. }
  assert (data st2 = base_recorded d) as Hd2
    by (by rewrite Hst2, polled_data).
  assert (issued st st2 =
          CUpdateAccelerator (update_input d)
            :: replicate j (CDescribeAccelerator (Id d))) as Hissued.
  { apply issued_app. rewrite Hst2, polled_calls. subst st1. cbn [calls].
    by rewrite <- app_assoc. }
  cbv zeta. split_and!.
  - subst d st1.
    rewrite (update_input_eq _ name ip b Hn Hi He) in Hupd, Hwait.
    update_to_answer st Hb Hn Hi He ip.
    all: rewrite ?bool_decide_eq_true_2, ?bool_decide_eq_false_2
           in Hupd, Hwait by done.
    all: rewrite Hupd.
    all: unfold bind at 1; cbn [modify_d]; unfold bind at 1; cbn [modify_d].
    all: unfold bind at 1; cbn [modify_d data remote calls uniq].
    all: unfold bind at 1.
    all: change (WaitForState polls_within _ ?s)
           with (WaitForState polls_within
                   (stateConf conn (Id (data st))
                      (Timeout (data st) TimeoutUpdate)) s).
    all: fold (base_recorded (data st)).
    all: by rewrite Hwait.
  - done.
  - rewrite Hd2. unfold base_recorded, SetPartial. cbn. set_unfold.
    intros k. tauto.
  - rewrite Hissued, count_cons, count_describes; done.
Qed.

(** X11: whenever Update returns success, partial mode is off and no key
    is left recorded as partially applied; this needs nothing of the
    client or of the resource data. *)
Theorem Update_success_leaves_partial_off st st' :
  resourceAwsGlobalAcceleratorAcceleratorUpdate conn polls_within st
    = (Return None, st') →
  partial (data st') = false ∧ partialMap (data st') = ∅.
Proof.
  unfold resourceAwsGlobalAcceleratorAcceleratorUpdate.
  unfold bind at 1. cbn [modify_d]. unfold bind at 1. cbn [get_d data].
  unfold bind at 1.
  lazymatch goal with
  | |- context [match ?X with pair _ _ => _ end] =>
      destruct X as [[[e|]|] s1]
  end; [done| |done].
  unfold bind at 1.
  lazymatch goal with
  | |- context [match ?X with pair _ _ => _ end] =>
      destruct X as [[[e|]|] s2]
  end; [done| |done].
  unfold bind at 1. cbn [modify_d].
  intros Hread.
  lazymatch type of Hread with
  | resourceAwsGlobalAcceleratorAcceleratorRead conn ?s = _ =>
      pose proof (Read_set_only conn s) as (_ & _ & _ & Hp & Hm & _)
  end.
  rewrite Hread in Hp, Hm. by cbn in Hp, Hm.
Qed.


(** ** The attributes update *)

(** X14: the attributes update either sends exactly one request or
    panics before any call: on a block typed as the schema types it, it
    sends the flag of the block, the bucket and the prefix exactly when
    the block has them, and returns nil or the wrapped error of the
    client; on any other block it panics and nothing is sent. *)
Theorem UpdateAttributes_one_call_or_panic arn m st :
  let request := attributes_input arn m in
  let answer := UpdateAcceleratorAttributes conn request (remote st) in
  resourceAwsGlobalAcceleratorAcceleratorUpdateAttributes conn arn m st =
    (if block_conforms m
     then (Return (Errorf
             "Error updating Global Accelerator accelerator attributes: "
             <$> answer.1),
           mkState (data st) answer.2
             (calls st ++ [CUpdateAcceleratorAttributes request]) (uniq st))
     else (Panic, st)) ∧
  (block_conforms m = true →
   attrs_AcceleratorArn request = Some arn ∧
   (∃ b, m !! "flow_logs_enabled" = Some (FBool b) ∧
         attrs_FlowLogsEnabled request = Some b) ∧
   (attrs_FlowLogsS3Bucket request = None ↔
    m !! "flow_logs_s3_bucket" = None) ∧
   (attrs_FlowLogsS3Prefix request = None ↔
    m !! "flow_logs_s3_prefix" = None)).
Proof.
  cbv zeta. split.
  - destruct (block_conforms m) eqn:Hm; [by apply UpdateAttributes_run|].
    unfold block_conforms in Hm.
    unfold resourceAwsGlobalAcceleratorAcceleratorUpdateAttributes.
    destruct (m !! "flow_logs_enabled") as [[b| |]|]; try done.
    destruct (m !! "flow_logs_s3_bucket") as [[|s1|]|]; try done;
      destruct (m !! "flow_logs_s3_prefix") as [[|s2|]|]; done.
  - unfold block_conforms, attributes_input. intros Hm.
    destruct (m !! "flow_logs_enabled") as [[b| |]|]; try done.
    destruct (m !! "flow_logs_s3_bucket") as [[|s1|]|]; try done;
      destruct (m !! "flow_logs_s3_prefix") as [[|s2|]|]; try done;
      cbn; (split_and!; [done|by exists b|done|done]).
Qed.

End Lifecycle_frames.

(** ** Further runs on the scripted client *)

(** An accelerator that is not found: no accelerator and no error. *)
Lemma Retrieve_absorbs_not_found_witness :
  resourceAwsGlobalAcceleratorAcceleratorRetrieve scripted arn1
    (start (resource_data arn1 ∅ ∅) quiet) =
  (Return (None, None),
   polled1 scripted arn1 (start (resource_data arn1 ∅ ∅) quiet)).
Proof.
  destruct (Retrieve_absorbs_not_found scripted arn1
              (start (resource_data arn1 ∅ ∅) quiet))
    as (accelerator & err & Hrun & _ & Hnf & _).
  destruct Hnf as [-> ->]; [reflexivity|]. exact Hrun.
Defined.


(** The attributes fetch answers "not found": Read returns an error. *)
Lemma Read_attributes_error_is_returned_witness :
  let st := start (resource_data arn1 ∅ ∅)
              (with_describe_attributes (with_describe quiet [deployed])
                 (inl not_found)) in
  let run := resourceAwsGlobalAcceleratorAcceleratorRead scripted st in
  run.1 = Return (Some (Errorf
    "Error reading Global Accelerator accelerator attributes: " not_found)) ∧
  Id (data run.2) = arn1.
Proof.
  intros st run.
  pose proof (Read_attributes_error_is_returned scripted st
                (accelerator_with AcceleratorStatusDeployed) not_found
                (with_describe_attributes quiet (inl not_found))) as H.
  cbv zeta in H.
  destruct H as (Hres & Hid & _); [reflexivity|reflexivity|].
  split; [exact Hres|exact Hid].
Defined.

(** The describe call is throttled. *)
Lemma Read_describe_error_is_returned_witness :
  let st := start (resource_data arn1 ∅ ∅)
              (with_describe quiet [inl throttled]) in
  let run := resourceAwsGlobalAcceleratorAcceleratorRead scripted st in
  run.1 = Return (Some (Errorf
    "Error reading Global Accelerator accelerator: " throttled)) ∧
  data run.2 = data st.
Proof.
  intros st run.
  pose proof (Read_describe_error_is_returned scripted st throttled) as H.
  cbv zeta in H.
  destruct H as (Hres & Hdata & _); [reflexivity|reflexivity|].
  split; [exact Hres|exact Hdata].
Defined.

(** Read of an accelerator that is not found stores nothing. *)
Lemma Read_changes_only_stored_values_witness :
  let st := start (resource_data arn1 ∅ ∅) quiet in
  data (resourceAwsGlobalAcceleratorAcceleratorRead scripted st).2 = data st.
Proof.
  intros st.
  destruct (Read_changes_only_stored_values scripted st)
    as (_ & _ & _ & _ & Hdata).
  apply Hdata. intros a. discriminate.
Defined.

(** The create request is throttled. *)
Lemma Create_refused_sets_nothing_witness :
  let st := start fresh (with_create quiet (inl throttled)) in
  (resourceAwsGlobalAcceleratorAcceleratorCreate
     scripted (λ _, "terraform-1") three_polls st).1 =
  Return (Some (Errorf
    "Error creating Global Accelerator accelerator: " throttled)).
Proof.
  intros st.
  pose proof (Create_refused_sets_nothing scripted (λ _, "terraform-1")
                three_polls st throttled
                (with_create quiet (inl throttled))) as H.
  cbv zeta in H. rewrite H; [reflexivity|reflexivity|reflexivity].
Defined.

(** The accelerator never becomes visible and the wait times out: the
    id is the new ARN all the same. *)
Lemma Create_records_the_arn_witness :
  let st := start fresh quiet in
  Id (data (resourceAwsGlobalAcceleratorAcceleratorCreate
              scripted (λ _, "terraform-1") three_polls st).2) = arn1.
Proof.
  intros st.
  pose proof (Create_records_the_arn scripted (λ _, "terraform-1")
                three_polls st
                (accelerator_with AcceleratorStatusInProgress) arn1 quiet)
    as H.
  cbv zeta in H.
  destruct H as (Hid & _); [reflexivity|reflexivity|reflexivity|].
  exact Hid.
Defined.

(** Create with an attributes block that the client refuses. *)
Lemma Create_applies_attributes_to_new_arn_witness :
  let st := start fresh
              (with_update_attributes (with_describe quiet [deployed])
                 (Some throttled)) in
  (resourceAwsGlobalAcceleratorAcceleratorCreate
     scripted (λ _, "terraform-1") three_polls st).1 =
  Return (Some (Errorf
    "Error updating Global Accelerator accelerator attributes: "
    throttled)).
Proof.
  intros st.
  pose proof (Create_applies_attributes_to_new_arn scripted
                (λ _, "terraform-1") three_polls st
                (accelerator_with AcceleratorStatusInProgress) arn1
                (with_update_attributes (with_describe quiet [deployed])
                   (Some throttled))
                (Some (accelerator_with AcceleratorStatusDeployed))
                (mkState (SetId fresh arn1)
                   (with_update_attributes quiet (Some throttled))
                   [CCreateAccelerator (create_input fresh "terraform-1");
                    CDescribeAccelerator arn1] 1)
                flow_logs []) as H.
  cbv zeta in H. rewrite H; reflexivity.
Defined.

(** The rename is refused. *)
Lemma Update_refused_records_nothing_witness :
  let st := start renamed (with_update quiet (Some throttled)) in
  partialMap (data (resourceAwsGlobalAcceleratorAcceleratorUpdate
                      scripted three_polls st).2) = ∅.
Proof.
  intros st.
  pose proof (Update_refused_records_nothing scripted three_polls st
                throttled (with_update quiet (Some throttled))) as H.
  cbv zeta in H.
  destruct H as (_ & _ & Hmap); [reflexivity|reflexivity|reflexivity|].
  exact Hmap.
Defined.

(** The rename is accepted but the accelerator is not seen again within
    three polls. *)
Lemma Update_wait_failure_keeps_record_witness :
  let st := start renamed quiet in
  (resourceAwsGlobalAcceleratorAcceleratorUpdate scripted three_polls st).1 =
  Return (Some (Errorf
    ("Error waiting for Global Accelerator accelerator (" +:+ arn1
       +:+ ") availability: ") (ProvisioningTimeout ""))).
Proof.
  intros st.
  pose proof (Update_wait_failure_keeps_record scripted three_polls st
                quiet None (ProvisioningTimeout "")
                (polled scripted arn1 3
                   (mkState (base_recorded renamed) quiet
                      [CUpdateAccelerator (update_input renamed)] 0))) as H.
  cbv zeta in H.
  destruct H as (Hrun & _); [reflexivity|reflexivity|reflexivity|reflexivity|].
  rewrite Hrun. reflexivity.
Defined.

(** A rename with a new attributes block that goes through. *)
Lemma Update_success_leaves_partial_off_witness :
  let st := start renamed (with_describe quiet [deployed; deployed]) in
  partial (data (resourceAwsGlobalAcceleratorAcceleratorUpdate
                   scripted three_polls st).2) = false.
Proof.
  intros st.
  assert ((resourceAwsGlobalAcceleratorAcceleratorUpdate
             scripted three_polls st).1 = Return None) as Hres
    by (vm_compute; reflexivity).
  destruct (resourceAwsGlobalAcceleratorAcceleratorUpdate
              scripted three_polls st) as [res st'] eqn:Hrun.
  cbn [fst] in Hres. subst res.
  exact (proj1 (Update_success_leaves_partial_off scripted three_polls
                  st st' Hrun)).
Defined.


(** A block with the flag only: bucket and prefix are left out. *)
Lemma UpdateAttributes_one_call_or_panic_witness :
  attrs_FlowLogsS3Bucket
    (attributes_input arn1 {[ "flow_logs_enabled" := FBool true ]}) = None.
Proof.
  destruct (UpdateAttributes_one_call_or_panic scripted arn1
              {[ "flow_logs_enabled" := FBool true ]}
              (start renamed quiet))
    as (_ & Hreq).
  destruct Hreq as (_ & _ & Hbucket & _); [reflexivity|].
  by apply Hbucket.
Defined.
